(** * zos_mount: command synthesis and persistent-block editing

    A shallow embedding of [plugins/modules/zos_mount.py]: the comment-card
    formatter, the mount and unmount command builders, [swap_text] and the
    control flow of [run_module], followed by the properties established
    for them.

    Conventions.  Python [str] values are [string]s whose characters have
    code points below 256.  A value that may be [None] is an [option].
    The operating system (data-set catalogue, [df], the clock, the
    parmlib member) is an explicit record read and updated by
    [run_module]. *)

From Equations Require Import Equations.
From Stdlib Require Import String Ascii List Bool Arith Lia DecimalString Sorted.
Import ListNotations.
Open Scope string_scope.

(* ===================================================================== *)
(** ** Python string primitives used by the module *)
(* ===================================================================== *)

Module PyStr.

(** The newline and the double-quote characters. *)
Definition nl_char : ascii := "010"%char.
Definition nl : string := String nl_char EmptyString.
Definition dq : string := String "034"%char EmptyString.

(** [str.isspace] on one character (code points below 256). *)
Definition isspace (c : ascii) : bool :=
  let n := nat_of_ascii c in
  ((9 <=? n)%nat && (n <=? 13)%nat) || ((28 <=? n)%nat && (n <=? 32)%nat)
  || (n =? 133)%nat || (n =? 160)%nat.

(** [s[0:n]] and [s[n:]]. *)
Fixpoint take (n : nat) (s : string) : string :=
  match n, s with
  | S n', String c s' => String c (take n' s')
  | _, _ => EmptyString
  end.

Fixpoint drop (n : nat) (s : string) : string :=
  match n, s with
  | S n', String _ s' => drop n' s'
  | _, _ => s
  end.

(** [s[i:j]] for [0 <= i <= j]. *)
Definition slice (i j : nat) (s : string) : string := take (j - i) (drop i s).

Fixpoint lstrip (s : string) : string :=
  match s with
  | String c s' => if isspace c then lstrip s' else s
  | EmptyString => EmptyString
  end.

Fixpoint rstrip (s : string) : string :=
  match s with
  | EmptyString => EmptyString
  | String c s' =>
      match rstrip s' with
      | EmptyString => if isspace c then EmptyString else String c EmptyString
      | r => String c r
      end
  end.

(** [s.strip()] *)
Definition strip (s : string) : string := rstrip (lstrip s).

(** [s.upper()] on ASCII letters. *)
Definition upper_char (c : ascii) : ascii :=
  let n := nat_of_ascii c in
  if (97 <=? n)%nat && (n <=? 122)%nat then ascii_of_nat (n - 32) else c.

Fixpoint upper (s : string) : string :=
  match s with
  | EmptyString => EmptyString
  | String c s' => String (upper_char c) (upper s')
  end.

(** [s.startswith(p)] *)
Fixpoint startswith (p s : string) : bool :=
  match p, s with
  | EmptyString, _ => true
  | String a p', String b s' => Ascii.eqb a b && startswith p' s'
  | String _ _, EmptyString => false
  end.

(** [needle in hay] *)
Fixpoint contains (needle hay : string) : bool :=
  startswith needle hay
  || match hay with
     | EmptyString => false
     | String _ hay' => contains needle hay'
     end.

(** [sep.join(l)] *)
Fixpoint join (sep : string) (l : list string) : string :=
  match l with
  | [] => EmptyString
  | [x] => x
  | x :: rest => x ++ sep ++ join sep rest
  end.

(** [s.split('\n')]: always at least one field. *)
Fixpoint split_nl_aux (cur : string) (s : string) : list string :=
  match s with
  | EmptyString => [cur]
  | String c s' =>
      if Ascii.eqb c nl_char then cur :: split_nl_aux EmptyString s'
      else split_nl_aux (cur ++ String c EmptyString) s'
  end.

Definition split_nl (s : string) : list string := split_nl_aux EmptyString s.

(** Line boundaries of [str.splitlines]. *)
Definition is_linebreak (c : ascii) : bool :=
  let n := nat_of_ascii c in
  ((10 <=? n)%nat && (n <=? 13)%nat) || ((28 <=? n)%nat && (n <=? 30)%nat)
  || (n =? 133)%nat.

(** [s.splitlines()]: a carriage return followed by a line feed is one
    boundary, and a final boundary opens no further line. *)
Fixpoint splitlines_aux (cur : string) (s : string) : list string :=
  match s with
  | EmptyString =>
      match cur with EmptyString => [] | _ => [cur] end
  | String c s' =>
      if is_linebreak c then
        match s' with
        | String d s'' =>
            if (nat_of_ascii c =? 13)%nat && (nat_of_ascii d =? 10)%nat
            then cur :: splitlines_aux EmptyString s''
            else cur :: splitlines_aux EmptyString s'
        | EmptyString => [cur]
        end
      else splitlines_aux (cur ++ String c EmptyString) s'
  end.

Definition splitlines (s : string) : list string :=
  splitlines_aux EmptyString s.

(** ["{0:02d}".format(n)] *)
Definition dec (n : nat) : string := NilEmpty.string_of_uint (Nat.to_uint n).

Definition fmt_02d (n : nat) : string :=
  let d := dec n in
  if (String.length d <? 2)%nat then "0" ++ d else d.

End PyStr.

Import PyStr.

(* ===================================================================== *)
(** ** The comment-card formatter of [run_module] *)
(* ===================================================================== *)

(** The value bound to [comments]: the list given under
    [persistent/comments], or the string literal the module assigns when
    no [persistent] dictionary is given. *)
Inductive comments_t : Type :=
| CommentsStr (s : string)
| CommentsList (l : list string).

(** [for tabline in comments]: iterating a [str] yields its characters as
    one-character strings. *)
Fixpoint chars (s : string) : list string :=
  match s with
  | EmptyString => []
  | String c s' => String c EmptyString :: chars s'
  end.

Definition py_iter (c : comments_t) : list string :=
  match c with
  | CommentsStr s => chars s
  | CommentsList l => l
  end.

(** [for i in range(59, 48, -1): if extra[i] == ' ': stopper = i; break],
    with [stopper = 60] beforehand. *)
Definition is_blank_at (extra : string) (i : nat) : bool :=
  match String.get i extra with
  | Some c => Ascii.eqb c " "
  | None => false
  end.

Definition find_stopper (extra : string) : nat :=
  match find (is_blank_at extra) (rev (seq 49 11)) with
  | Some i => i
  | None => 60
  end.

(** The card ["/* C{0:02d}:{1}".format(ctr, text)] followed by [' */\n']. *)
Definition card (ctr : nat) (text : string) : string :=
  "/* C" ++ fmt_02d ctr ++ ":" ++ text ++ " */".

(** Termination of the wrapping loop: past sixty characters at least
    forty-nine are cut off, and stripping does not lengthen a string. *)
Ltac wrap_shrinks :=
  assert (Hrstrip : forall u, String.length (rstrip u) <= String.length u)
    by (intros u; induction u as [|cu u IHu]; simpl; [lia|];
        destruct (rstrip u); [destruct (isspace cu)|]; simpl in *; lia);
  assert (Hlstrip : forall u, String.length (lstrip u) <= String.length u)
    by (intros u; induction u as [|cu u IHu]; simpl; [lia|];
        destruct (isspace cu); simpl; lia);
  assert (Hdrop : forall k u, String.length (drop k u) = String.length u - k)
    by (intros k; induction k as [|k IHk]; intros [|cu u]; simpl; auto);
  match goal with
  | |- String.length (strip (drop (find_stopper ?e) ?e)) < String.length ?e =>
      assert (Hstop : 49 <= find_stopper e)
        by (unfold find_stopper;
            destruct (find (is_blank_at e) (rev (seq 49 11))) as [i|] eqn:Efind;
            [apply find_some in Efind; destruct Efind as [Efind _];
             apply in_rev, in_seq in Efind; lia | lia]);
      unfold strip;
      specialize (Hrstrip (lstrip (drop (find_stopper e) e)));
      specialize (Hlstrip (drop (find_stopper e) e));
      rewrite Hdrop in Hlstrip; lia
  end.

(** The inner [while len(extra) > 0] loop, on the triple
    [(parmtext, extra, ctr)]. *)
Equations? drain (parmtext extra : string) (ctr : nat) : string * string * nat
  by wf (String.length extra) lt :=
  drain parmtext extra ctr with Nat.eq_dec (String.length extra) 0 => {
    | left _ := (parmtext, extra, ctr);
    | right _ with le_lt_dec (String.length extra) 60 => {
        | right _ :=
            let stopper := find_stopper extra in
            let tmpx := slice 0 stopper extra in
            drain (parmtext ++ card ctr tmpx ++ nl)
                  (strip (drop stopper extra)) (S ctr);
        | left _ :=
            drain (parmtext ++ card ctr extra ++ nl) EmptyString (S ctr) } }.
Proof.
  - simpl. lia.
  - subst stopper tmpx. wrap_shrinks.
Qed.

(** The outer [for tabline in comments] loop. *)
Fixpoint comment_loop (tablines : list string) (st : string * string * nat)
  : string * string * nat :=
  match tablines with
  | [] => st
  | tabline :: rest =>
      let '(parmtext, extra, ctr) := st in
      let extra := if (0 <? String.length extra)%nat then extra ++ " " else extra in
      let extra := extra ++ strip tabline in
      comment_loop rest (drain parmtext extra ctr)
  end.

(** [parmtext] before any card is written, and [parmtail]. *)
Definition begin_marker (dtstr : string) : string :=
  "/* BEGIN ANSIBLE MANAGED BLOCK " ++ dtstr ++ " */" ++ nl.

(** [s.replace("BEGIN", "END")]: occurrences are replaced from left to
    right; [skip] counts the characters of an occurrence still to pass. *)
Fixpoint replace_begin_end (skip : nat) (s : string) : string :=
  match s with
  | EmptyString => EmptyString
  | String c s' =>
      match skip with
      | S k => replace_begin_end k s'
      | O =>
          if startswith "BEGIN" s then "END" ++ replace_begin_end 4 s'
          else String c (replace_begin_end 0 s')
      end
  end.

Definition replace_BEGIN_END (s : string) : string := replace_begin_end 0 s.

Definition parmtail_of (parmtext : string) : string :=
  nl ++ replace_BEGIN_END parmtext.

(** [parmtext] after the comment block: the marker line followed by the
    cards ([if comments is not None:]). *)
Definition comment_header (dtstr : string) (comments : option comments_t)
  : string :=
  match comments with
  | None => begin_marker dtstr
  | Some c =>
      let '(parmtext, _, _) :=
        comment_loop (py_iter c) (begin_marker dtstr, EmptyString, 1) in
      parmtext
  end.

(* ===================================================================== *)
(** ** Module arguments *)
(* ===================================================================== *)

(** The [persistent] dictionary. *)
Record Persistent : Type := {
  data_set_name : string;
  comments : option (list string);
  backup : bool;
  backup_name : option string
}.

(** [parsed_args], as read at the top of [run_module]. *)
Record Params : Type := {
  src : string;
  path : option string;
  fs_type : option string;
  state : string;
  persistent : option Persistent;
  unmount_opts : option string;
  mount_opts : string;
  src_params : option string;
  tag_untagged : option string;
  tag_ccsid : option string;
  allow_uid : bool;
  sysname : option string;
  automove : option string;
  automove_list : option string
}.

(** [str.format] of a value that may be [None]. *)
Definition fmt (o : option string) : string :=
  match o with
  | Some s => s
  | None => "None"
  end.

(** Truth value of an optional string ([if path:], [if not path:]). *)
Definition truthy (o : option string) : bool :=
  match o with
  | Some s => (0 <? String.length s)%nat
  | None => false
  end.

(* ===================================================================== *)
(** ** Assembling the mount command ([if gonna_mount:]) *)
(* ===================================================================== *)

(** Each step maps the pair [(fullcmd, parmtext)] to its next value. *)
Definition cmd_pair : Type := (string * string)%type.

Definition mount_head (a : Params) (fs_type : option string) (parmtext : string)
  : cmd_pair :=
  ("tsocmd MOUNT FILESYSTEM\( \'" ++ src a ++ "\' \) MOUNTPOINT\( \'"
     ++ fmt (path a) ++ "\' \) TYPE\( '" ++ fmt fs_type ++ "' \)",
   parmtext ++ "MOUNT FILESYSTEM('" ++ src a ++ "')" ++ nl
     ++ "      MOUNTPOINT('" ++ fmt (path a) ++ "')" ++ nl
     ++ "      TYPE('" ++ fmt fs_type ++ "')").

Definition mode_subcmd (a : Params) : string :=
  if contains "ro" (mount_opts a) || contains "RO" (mount_opts a)
  then "READ" else "RDWR".

Definition add_mode (a : Params) (c : cmd_pair) : cmd_pair :=
  let '(fullcmd, parmtext) := c in
  (fullcmd ++ " MODE\(" ++ mode_subcmd a ++ "\)",
   parmtext ++ nl ++ "      MODE(" ++ mode_subcmd a ++ ")").

Definition add_src_params (a : Params) (c : cmd_pair) : cmd_pair :=
  let '(fullcmd, parmtext) := c in
  match src_params a with
  | Some sp =>
      if (1 <? String.length sp)%nat then
        (fullcmd ++ " PARM\(\'" ++ sp ++ "\'\)",
         parmtext ++ nl ++ "      PARM('" ++ sp ++ "')")
      else c
  | None => c
  end.

Definition add_tag (a : Params) (c : cmd_pair) : cmd_pair :=
  let '(fullcmd, parmtext) := c in
  match tag_untagged a with
  | Some tu =>
      if (0 <? String.length tu)%nat then
        (fullcmd ++ " TAG\(" ++ tu ++ "," ++ fmt (tag_ccsid a) ++ "\)",
         parmtext ++ nl ++ "      TAG(" ++ tu ++ "," ++ fmt (tag_ccsid a) ++ ")")
      else c
  | None => c
  end.

Definition add_setuid (a : Params) (c : cmd_pair) : cmd_pair :=
  let '(fullcmd, parmtext) := c in
  if allow_uid a then
    (fullcmd ++ " SETUID", parmtext ++ nl ++ "      SETUID")
  else
    (fullcmd ++ " NOSETUID", parmtext ++ nl ++ "      NOSETUID").

Definition add_wait (a : Params) (c : cmd_pair) : cmd_pair :=
  let '(fullcmd, parmtext) := c in
  if contains "NOWAIT" (mount_opts a) || contains "nowait" (mount_opts a) then
    (fullcmd ++ " NOWAIT", parmtext ++ nl ++ "      NOWAIT")
  else
    (fullcmd ++ " WAIT", parmtext ++ nl ++ "      WAIT").

Definition add_security (a : Params) (c : cmd_pair) : cmd_pair :=
  let '(fullcmd, parmtext) := c in
  if contains "NOSECURITY" (mount_opts a) || contains "nosecurity" (mount_opts a)
  then (fullcmd ++ " NOSECURITY", parmtext ++ nl ++ "      NOSECURITY")
  else (fullcmd ++ " SECURITY", parmtext ++ nl ++ "      SECURITY").

Definition add_sysname (a : Params) (c : cmd_pair) : cmd_pair :=
  let '(fullcmd, parmtext) := c in
  match sysname a with
  | Some sn =>
      if (0 <? String.length sn)%nat && (String.length sn <? 9)%nat then
        (fullcmd ++ " SYSNAME\(" ++ sn ++ "\)",
         parmtext ++ nl ++ "      SYSNAME(" ++ sn ++ ")")
      else c
  | None => c
  end.

Definition add_automove (a : Params) (c : cmd_pair) : cmd_pair :=
  let '(fullcmd, parmtext) := c in
  match automove a with
  | Some am =>
      if (1 <? String.length am)%nat then
        let fullcmd := fullcmd ++ " " ++ am in
        let parmtext := parmtext ++ nl ++ "      " ++ am in
        match automove_list a with
        | Some al =>
            if (1 <? String.length al)%nat then
              (fullcmd ++ "(" ++ al ++ ")", parmtext ++ "(" ++ al ++ ")")
            else (fullcmd, parmtext)
        | None => (fullcmd, parmtext)
        end
      else c
  | None => c
  end.

(** The whole [if gonna_mount:] branch up to, and without,
    [parmtext = parmtext + parmtail]. *)
Definition build_mount (a : Params) (fs_type : option string) (parmtext : string)
  : cmd_pair :=
  add_automove a
    (add_sysname a
      (add_security a
        (add_wait a
          (add_setuid a
            (add_tag a
              (add_src_params a
                (add_mode a (mount_head a fs_type parmtext)))))))).

(** [if gonna_unmount:  # unmount/remount], giving [fullumcmd]. *)
Definition build_unmount (a : Params) (fullcmd : string) : string :=
  let fullumcmd := "tsocmd UNMOUNT FILESYSTEM\(\'" ++ src a ++ "\'\)" in
  match unmount_opts a with
  | None => fullcmd ++ " " ++ "NORMAL"
  | Some uo =>
      if (String.length uo <? 2)%nat then fullcmd ++ " " ++ "NORMAL"
      else fullumcmd
  end.

(* ===================================================================== *)
(** ** [swap_text] *)
(* ===================================================================== *)

(** The identifier part of the pattern compiled by [swap_text].  The
    upper-cased identifier is spliced into the regular expression as it
    is, so its characters are pattern syntax: a dot matches any character
    but a newline; a dollar sign is an end-of-text anchor, after which the
    closing quote of the pattern can no longer match; parentheses (a
    member name) delimit a group and match nothing themselves; letters,
    digits, [@], [#] and [-] stand for themselves.  These are the
    characters of a data-set name, which is what [src] is validated to be. *)
Fixpoint match_id (pat s : string) : option string :=
  match pat with
  | EmptyString => Some s
  | String p pat' =>
      if Ascii.eqb p "$" then None
      else if Ascii.eqb p "(" || Ascii.eqb p ")" then match_id pat' s
      else
        match s with
        | EmptyString => None
        | String c s' =>
            if Ascii.eqb p "." then
              if Ascii.eqb c nl_char then None else match_id pat' s'
            else if Ascii.eqb p c then match_id pat' s'
            else None
        end
  end.

(** A literal piece of the pattern. *)
Definition match_lit (lit s : string) : option string :=
  if startswith lit s then Some (drop (String.length lit) s) else None.

(** [ms.match(line) is not None] for
    [ms = re.compile(r"^\s*MOUNT\s+FILESYSTEM\(\s*'" + removing.upper() + r"'\s*\)")].
    No whitespace run is followed by a piece that can start with
    whitespace, so each run is matched greedily. *)
Definition ms_match (removing line : string) : bool :=
  match match_lit "MOUNT" (lstrip line) with
  | Some (String c s1) =>
      if isspace c then
        match match_lit "FILESYSTEM(" (lstrip s1) with
        | Some s2 =>
            match match_lit "'" (lstrip s2) with
            | Some s3 =>
                match match_id (upper removing) s3 with
                | Some s4 =>
                    match match_lit "'" s4 with
                    | Some s5 => startswith ")" (lstrip s5)
                    | None => false
                    end
                | None => false
                end
            | None => false
            end
        | None => false
        end
      else false
  | _ => false
  end.

(** [boneyard[k] = v] on an insertion-ordered [dict]. *)
Fixpoint dict_set (d : list (nat * nat)) (k v : nat) : list (nat * nat) :=
  match d with
  | [] => [(k, v)]
  | (k', v') :: d' =>
      if (k' =? k)%nat then (k, v) :: d' else (k', v') :: dict_set d' k v
  end.

(** The loop variables [remove_starting_at_index],
    [remove_ending_at_index] and [boneyard]. *)
Record scan : Type := {
  remove_starting_at_index : option nat;
  remove_ending_at_index : option nat;
  boneyard : list (nat * nat)
}.

(** The test that ends the backward walk at [tmpline]. *)
Definition stops_walk (tmpline : string) : bool :=
  if (0 <? String.length tmpline)%nat then
    negb (slice 0 2 tmpline =? "/*") || (slice 0 6 tmpline =? "/* BEG")
  else true.

(** [for tmpindex in range(index - 1, 0, -1)]: the index the walk breaks
    at, or [index] when it runs to the end of the range. *)
Definition walk_back (content_lines : list string) (index : nat) : nat :=
  match find (fun tmpindex => stops_walk (nth tmpindex content_lines EmptyString))
             (rev (seq 1 (index - 1))) with
  | Some tmpindex => tmpindex
  | None => index
  end.

(** [doit] for a line below the matched one. *)
Definition ends_block (line : string) : bool :=
  match line with
  | EmptyString => true
  | String c _ =>
      if negb (Ascii.eqb c " ") && negb (Ascii.eqb c "009")
         && negb (slice 0 2 line =? "/*")
      then true
      else slice 0 6 line =? "/* END"
  end.

(** One iteration of [for index, line in enumerate(content_lines)]. *)
Definition scan_step (removing : string) (content_lines : list string)
  (st : scan) (il : nat * string) : scan :=
  let '(index, line) := il in
  match remove_starting_at_index st with
  | None =>
      if ms_match removing line then
        {| remove_starting_at_index :=
             Some (if (0 <? index)%nat then walk_back content_lines index
                   else index);
           remove_ending_at_index := Some index;
           boneyard := boneyard st |}
      else st
  | Some start =>
      if ends_block line then
        {| remove_starting_at_index := None;
           remove_ending_at_index := None;
           boneyard := dict_set (boneyard st) start index |}
      else
        {| remove_starting_at_index := Some start;
           remove_ending_at_index := Some index;
           boneyard := boneyard st |}
  end.

Definition enumerate (l : list string) : list (nat * string) :=
  combine (seq 0 (List.length l)) l.

(** The [boneyard] after the scan and the check that follows it. *)
Definition spans (removing : string) (content_lines : list string)
  : list (nat * nat) :=
  let st := fold_left (scan_step removing content_lines)
                      (enumerate content_lines)
                      {| remove_starting_at_index := None;
                         remove_ending_at_index := None;
                         boneyard := [] |} in
  match remove_starting_at_index st, remove_ending_at_index st with
  | Some s, Some e =>
      if (s =? e)%nat then boneyard st else dict_set (boneyard st) s e
  | _, _ => boneyard st
  end.

(** [del(content_lines[startidx:endidx + 1])] *)
Definition del_slice (startidx endidx : nat) (l : list string) : list string :=
  firstn startidx l ++ skipn (Nat.max startidx (endidx + 1)) l.

(** [content_lines] when [swap_text] returns.  It is the caller's list:
    [content_lines = original] binds a second name to the same object. *)
Definition swap_text_lines (original : list string) (adding removing : string)
  : list string :=
  let content_lines :=
    fold_left (fun l se => del_slice (fst se) (snd se) l)
              (rev (spans removing original)) original in
  if (0 <? String.length adding)%nat then content_lines ++ split_nl adding
  else content_lines.

Definition swap_text (original : list string) (adding removing : string)
  : string :=
  join nl (swap_text_lines original adding removing).

(** Python values met by the comparison [newtext != content]. *)
Inductive pyval : Type :=
| PyStr (s : string)
| PyList (l : list string).

Fixpoint list_eqb (x y : list string) : bool :=
  match x, y with
  | [], [] => true
  | a :: x', b :: y' => (a =? b) && list_eqb x' y'
  | _, _ => false
  end.

(** [a != b]: values of different types are never equal. *)
Definition py_ne (a b : pyval) : bool :=
  match a, b with
  | PyStr x, PyStr y => negb (x =? y)
  | PyList x, PyList y => negb (list_eqb x y)
  | _, _ => true
  end.

(* ===================================================================== *)
(** ** [run_module] *)
(* ===================================================================== *)

(** What [run_module] reads from, and does to, the system it runs on: the
    catalogue of data sets with their text, the mount point, the [df]
    listing, the clock, and the commands handed to [module.run_command].
    Copy commands are taken to succeed on data sets that exist. *)
Record Host : Type := {
  check_mode : bool;
  catalog : string -> option string;
  path_exists : bool;
  mkdir_error : option string;
  df_rc : nat;
  df_stdout : string;
  today : string;
  tmp_file_filename : string;
  commands : list string
}.

Definition run_command (cmd : string) (h : Host) : Host :=
  {| check_mode := check_mode h; catalog := catalog h;
     path_exists := path_exists h; mkdir_error := mkdir_error h;
     df_rc := df_rc h; df_stdout := df_stdout h; today := today h;
     tmp_file_filename := tmp_file_filename h;
     commands := commands h ++ [cmd] |}.

Definition mkdir (h : Host) : Host :=
  {| check_mode := check_mode h; catalog := catalog h;
     path_exists := true; mkdir_error := mkdir_error h;
     df_rc := df_rc h; df_stdout := df_stdout h; today := today h;
     tmp_file_filename := tmp_file_filename h;
     commands := commands h |}.

(** A data set receives the text of the temporary file. *)
Definition copy_to (name text : string) (h : Host) : Host :=
  {| check_mode := check_mode h;
     catalog := fun n => if n =? name then Some text else catalog h n;
     path_exists := path_exists h; mkdir_error := mkdir_error h;
     df_rc := df_rc h; df_stdout := df_stdout h; today := today h;
     tmp_file_filename := tmp_file_filename h;
     commands := commands h |}.

(** [data_set.DataSetUtils(name).exists()] *)
Definition exists_ds (name : string) (h : Host) : bool :=
  match catalog h name with
  | Some _ => true
  | None => false
  end.

(** The entries of [res_args] that the module computes. *)
Record Result : Type := {
  changed : bool;
  comment : string;
  cmd : string
}.

(** [module.fail_json] ends the run with a message; otherwise [res_args]
    is returned. *)
Inductive outcome : Type :=
| Failed (msg : string) (h : Host)
| Done (r : Result) (h : Host).

Definition in_state (word : string) (a : Params) : bool := contains word (state a).

(** [write_persistent] *)
Definition write_persistent (a : Params) : bool :=
  (in_state "mounted" a || in_state "present" a || in_state "absent" a)
  && match persistent a with
     | Some p =>
         let data_set_name := upper (data_set_name p) in
         (0 <? String.length data_set_name)%nat
         && (0 <? String.length data_set_name)%nat
     | None => false
     end.

Definition gonna_mount (a : Params) : bool :=
  negb (in_state "unmounted" a || in_state "absent" a).

Definition gonna_unmount (a : Params) : bool :=
  in_state "unmounted" a || in_state "remounted" a || in_state "absent" a.

(** [comments] after the [if persistent: ... else: ...] block. *)
Definition comments_of (a : Params) : option comments_t :=
  match persistent a with
  | Some p => option_map CommentsList (comments p)
  | None => Some (CommentsStr "no comments provided")
  end.

(** [(backup, backup_name)] after the same block. *)
Definition backup_of (a : Params) : bool * option string :=
  match persistent a with
  | Some p =>
      if backup p then
        if truthy (backup_name p) then (true, option_map upper (backup_name p))
        else (false, backup_name p)
      else (false, None)
  | None => (false, None)
  end.

(** [currently_mounted] after the scan of the [df] listing. *)
Definition mounted_in (a : Params) (h : Host) : bool :=
  existsb (contains (src a)) (splitlines (df_stdout h)).

(** [(fullcmd, parmtext)] after the section that assembles the mount
    command. *)
Definition assemble (a : Params) (fs_type : option string) (dtstr : string)
  : cmd_pair :=
  let parmtext := begin_marker dtstr in
  let parmtail := parmtail_of parmtext in
  let parmtext := comment_header dtstr (comments_of a) in
  if gonna_mount a then
    let '(fullcmd, parmtext) := build_mount a fs_type parmtext in
    (fullcmd, parmtext ++ parmtail)
  else (EmptyString, EmptyString).

(** The unmount step: [(changed, comment, currently_mounted)] and the host. *)
Definition unmount_step (a : Params) (fullumcmd : string)
  (st : bool * string * bool) (h : Host) : bool * string * bool * Host :=
  let '(changed, comment, currently_mounted) := st in
  if gonna_unmount a then
    if currently_mounted then
      if negb (check_mode h) then
        (true, comment ++ "ran unmount command" ++ nl, false,
         run_command fullumcmd h)
      else
        (true, comment ++ "(unmount) NO Action taken: ANSIBLE CHECK MODE" ++ nl,
         currently_mounted, h)
    else
      (changed, comment ++ "Unmount called on data set that is not mounted." ++ nl,
       currently_mounted, h)
  else (changed, comment, currently_mounted, h).

(** The mount step. *)
Definition mount_step (a : Params) (fullcmd : string)
  (st : bool * string * bool) (h : Host) : bool * string * bool * Host :=
  let '(changed, comment, currently_mounted) := st in
  if gonna_mount a then
    if negb currently_mounted then
      if negb (check_mode h) then
        (true, comment ++ "ran mount command" ++ nl, currently_mounted,
         run_command fullcmd h)
      else
        (true, comment ++ "(mount) NO Action taken: ANSIBLE CHECK MODE" ++ nl,
         currently_mounted, h)
    else
      (changed, comment ++ "Mount called on data set that is already mounted." ++ nl,
       currently_mounted, h)
  else (changed, comment, currently_mounted, h).

(** The block under [if write_persistent and module.check_mode is False:],
    entered with the data set known to exist and holding [text]. *)
Definition persist (a : Params) (data_set_name text parmtext comment : string)
  (h : Host) : string * Host :=
  let tmp := tmp_file_filename h in
  let h := run_command ("cp " ++ dq ++ "//'" ++ data_set_name ++ "'" ++ dq
                          ++ " " ++ tmp) h in
  let '(comment, h) :=
    match backup_of a with
    | (true, Some backup_name) =>
        if (0 <? String.length backup_name)%nat then
          let h := run_command ("cp " ++ tmp ++ " " ++ dq ++ "//'"
                                  ++ backup_name ++ "'" ++ dq) h in
          (comment ++ "Wrote backup to " ++ backup_name ++ nl,
           copy_to backup_name text h)
        else (comment, h)
    | _ => (comment, h)
    end in
  let content := splitlines text in
  let newtext := swap_text content parmtext (src a) in
  let content := swap_text_lines content parmtext (src a) in
  if py_ne (PyStr newtext) (PyList content) then
    let h := run_command ("cp " ++ tmp ++ " " ++ dq ++ "//'"
                            ++ data_set_name ++ "'" ++ dq) h in
    (comment ++ "Modified " ++ data_set_name ++ " in place" ++ nl,
     copy_to data_set_name newtext h)
  else (comment, h).

Definition run_module (a : Params) (h : Host) : outcome :=
  if negb (truthy (path a))
     && (negb (in_state "unmounted" a) && negb (in_state "absent" a))
  then Failed "path is required for mount/remount state, and was not provided." h
  else
  if negb (truthy (fs_type a))
     && (negb (in_state "unmounted" a) && negb (in_state "absent" a))
  then Failed "fs_type is required for mount/remount state, and was not provided." h
  else
  let fs_type := if truthy (fs_type a) then option_map upper (fs_type a)
                 else fs_type a in
  let comment := "starting" ++ nl in
  if negb (exists_ds (src a) h)
  then Failed ("Mount source (" ++ src a ++ ") doesn't exist") h
  else
  let mounting :=
    if gonna_mount a then
      if path_exists h then inr (comment ++ "ran unmount command" ++ nl, h)
      else
        match mkdir_error h with
        | Some err => inl err
        | None => inr (comment ++ "ran unmount command" ++ nl, mkdir h)
        end
    else inr (comment, h) in
  match mounting with
  | inl err => Failed err h
  | inr (comment, h) =>
  let h := run_command "df" h in
  if negb (df_rc h =? 0)%nat
  then Failed "Checking filesystem list failed with error" h
  else
  let currently_mounted := mounted_in a h in
  let '(fullcmd, parmtext) := assemble a fs_type (today h) in
  let fullumcmd :=
    if gonna_unmount a then build_unmount a fullcmd else EmptyString in
  let '(changed, comment, currently_mounted, h) :=
    unmount_step a fullumcmd (false, comment, currently_mounted) h in
  let '(changed, comment, currently_mounted, h) :=
    mount_step a fullcmd (changed, comment, currently_mounted) h in
  if write_persistent a && negb (check_mode h) then
    match persistent a with
    | Some p =>
        let data_set_name := upper (data_set_name p) in
        match catalog h data_set_name with
        | None =>
            Failed ("persistent data_set_name member (" ++ data_set_name
                      ++ ") doesn't exist") h
        | Some text =>
            let '(comment, h) :=
              persist a data_set_name text parmtext comment h in
            Done {| changed := changed; comment := comment;
                    cmd := fullcmd ++ fullumcmd |} h
        end
    | None =>
        Done {| changed := changed; comment := comment;
                cmd := fullcmd ++ fullumcmd |} h
    end
  else
    Done {| changed := changed; comment := comment;
            cmd := fullcmd ++ fullumcmd |} h
  end.

(* ===================================================================== *)
(** ** Descriptions used in the statements *)
(* ===================================================================== *)

(** The cards that [drain] appends for a buffer [extra], as a list. *)
Equations? cards_of (extra : string) (ctr : nat) : list string
  by wf (String.length extra) lt :=
  cards_of extra ctr with Nat.eq_dec (String.length extra) 0 => {
    | left _ := [];
    | right _ with le_lt_dec (String.length extra) 60 => {
        | right _ :=
            card ctr (slice 0 (find_stopper extra) extra)
              :: cards_of (strip (drop (find_stopper extra) extra)) (S ctr);
        | left _ := [card ctr extra] } }.
Proof.
  wrap_shrinks.
Qed.

(** Each card is written on a line of its own. *)
Definition cards_text (cards : list string) : string :=
  fold_right (fun c acc => c ++ nl ++ acc) EmptyString cards.

(** The cards written for a whole list of comment strings: the buffer is
    empty again when the next string is taken up, so the cards of each
    string are those of that string alone. *)
Fixpoint cards_of_list (tablines : list string) (ctr : nat) : list string :=
  match tablines with
  | [] => []
  | tabline :: rest =>
      let cs := cards_of (strip tabline) ctr in
      cs ++ cards_of_list rest (ctr + List.length cs)
  end.

(** The optional parts of a mount command, with their values. *)
Inductive facet : Type :=
| Mode (subcmd : string)
| Parm (src_params : string)
| Tag (tag_untagged tag_ccsid : string)
| Setuid (allow_uid : bool)
| Wait (wait : bool)
| Security (security : bool)
| Sysname (sysname : string)
| Automove (automove : string) (automove_list : option string).

(** Position of a facet in the documented order. *)
Definition rank (f : facet) : nat :=
  match f with
  | Mode _ => 0
  | Parm _ => 1
  | Tag _ _ => 2
  | Setuid _ => 3
  | Wait _ => 4
  | Security _ => 5
  | Sysname _ => 6
  | Automove _ _ => 7
  end.

(** A facet as written on the command line. *)
Definition cmd_word (f : facet) : string :=
  match f with
  | Mode m => "MODE\(" ++ m ++ "\)"
  | Parm sp => "PARM\(\'" ++ sp ++ "\'\)"
  | Tag tu cc => "TAG\(" ++ tu ++ "," ++ cc ++ "\)"
  | Setuid b => if b then "SETUID" else "NOSETUID"
  | Wait b => if b then "WAIT" else "NOWAIT"
  | Security b => if b then "SECURITY" else "NOSECURITY"
  | Sysname sn => "SYSNAME\(" ++ sn ++ "\)"
  | Automove am None => am
  | Automove am (Some al) => am ++ "(" ++ al ++ ")"
  end.

(** A facet as written in the parmlib entry. *)
Definition body_word (f : facet) : string :=
  match f with
  | Mode m => "MODE(" ++ m ++ ")"
  | Parm sp => "PARM('" ++ sp ++ "')"
  | Tag tu cc => "TAG(" ++ tu ++ "," ++ cc ++ ")"
  | Setuid b => if b then "SETUID" else "NOSETUID"
  | Wait b => if b then "WAIT" else "NOWAIT"
  | Security b => if b then "SECURITY" else "NOSECURITY"
  | Sysname sn => "SYSNAME(" ++ sn ++ ")"
  | Automove am None => am
  | Automove am (Some al) => am ++ "(" ++ al ++ ")"
  end.

(** Words after the head of the command, each after one blank. *)
Definition cmd_render (fs : list facet) : string :=
  fold_right (fun f acc => " " ++ cmd_word f ++ acc) EmptyString fs.

(** Words after the head of the entry, each on a continuation line. *)
Definition body_render (fs : list facet) : string :=
  fold_right (fun f acc => nl ++ "      " ++ body_word f ++ acc) EmptyString fs.

(** A string option that is given and has at least [n] characters. *)
Definition given (n : nat) (o : option string) : option string :=
  match o with
  | Some s => if (n <=? String.length s)%nat then Some s else None
  | None => None
  end.

Definition opt_list {A : Type} (o : option A) : list A :=
  match o with
  | Some x => [x]
  | None => []
  end.

(** The facets of a parameter set, in the documented order. *)
Definition facets_of (a : Params) : list facet :=
  [Mode (mode_subcmd a)]
  ++ opt_list (option_map Parm (given 2 (src_params a)))
  ++ opt_list (option_map (fun tu => Tag tu (fmt (tag_ccsid a)))
                          (given 1 (tag_untagged a)))
  ++ [Setuid (allow_uid a);
      Wait (negb (contains "NOWAIT" (mount_opts a)
                  || contains "nowait" (mount_opts a)));
      Security (negb (contains "NOSECURITY" (mount_opts a)
                      || contains "nosecurity" (mount_opts a)))]
  ++ opt_list (option_map Sysname
                 (match given 1 (sysname a) with
                  | Some sn => if (String.length sn <? 9)%nat then Some sn else None
                  | None => None
                  end))
  ++ opt_list (option_map (fun am => Automove am (given 2 (automove_list a)))
                          (given 2 (automove a))).

(** [fs_type] once upper-cased. *)
Definition fs_type_upper (a : Params) : option string :=
  if truthy (fs_type a) then option_map upper (fs_type a) else fs_type a.

(** The head of the command line and of the parmlib entry. *)
Definition cmd_head (a : Params) : string :=
  "tsocmd MOUNT FILESYSTEM\( \'" ++ src a ++ "\' \) MOUNTPOINT\( \'"
    ++ fmt (path a) ++ "\' \) TYPE\( '" ++ fmt (fs_type_upper a) ++ "' \)".

Definition body_head (a : Params) : string :=
  "MOUNT FILESYSTEM('" ++ src a ++ "')" ++ nl
    ++ "      MOUNTPOINT('" ++ fmt (path a) ++ "')" ++ nl
    ++ "      TYPE('" ++ fmt (fs_type_upper a) ++ "')".

(** A step that appends the words of [fs] to both texts. *)
Definition appends (step : cmd_pair -> cmd_pair) (fs : list facet) : Prop :=
  forall c p, step (c, p) = (c ++ cmd_render fs, p ++ body_render fs).

(** [fullumcmd] for a parameter set. *)
Definition fullumcmd_of (a : Params) (fullcmd : string) : string :=
  if gonna_unmount a then build_unmount a fullcmd else EmptyString.

(** [changed] as a function of the mount state found by [df]. *)
Definition changed_of (a : Params) (check : bool) (currently_mounted : bool)
  : bool :=
  let unmounting := gonna_unmount a && currently_mounted in
  let still_mounted :=
    if unmounting && negb check then false else currently_mounted in
  unmounting || (gonna_mount a && negb still_mounted).

(** The conditions under which no call of [module.fail_json] is reached. *)
Definition ready (a : Params) (h : Host) : bool :=
  (truthy (path a) || in_state "unmounted" a || in_state "absent" a)
  && (truthy (fs_type a) || in_state "unmounted" a || in_state "absent" a)
  && exists_ds (src a) h
  && (negb (gonna_mount a) || path_exists h
      || match mkdir_error h with None => true | Some _ => false end)
  && (df_rc h =? 0)%nat
  && (negb (write_persistent a && negb (check_mode h))
      || match persistent a with
         | Some p => exists_ds (upper (data_set_name p)) h
         | None => true
         end).

(* ===================================================================== *)
(** ** Sample invocations *)
(* ===================================================================== *)

(** Arguments for [USER.DATA.ZFS] on [/u/core], every other option at the
    default of the argument specification. *)
Definition sample_params (state : string) (persistent : option Persistent)
  (unmount_opts src_params : option string) : Params :=
  {| src := "USER.DATA.ZFS"; path := Some "/u/core"; fs_type := Some "ZFS";
     state := state; persistent := persistent;
     unmount_opts := unmount_opts; mount_opts := "rw";
     src_params := src_params; tag_untagged := Some EmptyString;
     tag_ccsid := None; allow_uid := true; sysname := Some EmptyString;
     automove := Some "AUTOMOVE"; automove_list := Some EmptyString |}.

Definition sample_persistent : Persistent :=
  {| data_set_name := "SYS1.PARMLIB(BPXPRMAA)"; comments := Some ["For Tape2 project"];
     backup := false; backup_name := None |}.

(** A host where the source data set exists, the parmlib member holds
    [store], and [df] prints [listing]. *)
Definition sample_host (check : bool) (store listing : string) : Host :=
  {| check_mode := check;
     catalog := fun n =>
       if n =? "USER.DATA.ZFS" then Some EmptyString
       else if n =? "SYS1.PARMLIB(BPXPRMAA)" then Some store
       else None;
     path_exists := true; mkdir_error := None;
     df_rc := 0; df_stdout := listing;
     today := "20200101-000000"; tmp_file_filename := "/tmp/tmpq3x9";
     commands := [] |}.

(** A [df] line for the mounted data set. *)
Definition df_mounted : string :=
  "/u/core        (USER.DATA.ZFS)        1000/1440" ++ nl.

(** A comment of two hundred characters without a blank. *)
Definition long_comment : string := string_of_list_ascii (repeat "x"%char 200).

(** A parmlib member that holds nothing but the entry written for
    [USER.DATA.ZFS] by an earlier run. *)
Definition entry_only : list string :=
  ["/* BEGIN ANSIBLE MANAGED BLOCK 20200101-000000 */";
   "/* C01:For Tape2 project */";
   "MOUNT FILESYSTEM('USER.DATA.ZFS')";
   "      MOUNTPOINT('/u/core')";
   "      TYPE('ZFS')";
   "      MODE(RDWR)";
   "      SETUID";
   "      WAIT";
   "      SECURITY";
   "      AUTOMOVE";
   "/* END ANSIBLE MANAGED BLOCK 20200101-000000 */"].

(** A parmlib member with one foreign line followed by the entry of
    [entry_only]. *)
Definition member_with_entry : string :=
  "/* other */" ++ nl ++ join nl entry_only ++ nl.

(** The scan of [swap_text] over the lines [lines] that stand at index
    [i] and after, from the loop state [st]. *)
Definition scan_from (removing : string) (content_lines : list string)
  (i : nat) (lines : list string) (st : scan) : scan :=
  fold_left (scan_step removing content_lines)
            (combine (seq i (List.length lines)) lines) st.

(** The loop state before the first line. *)
Definition scan_start : scan :=
  {| remove_starting_at_index := None;
     remove_ending_at_index := None;
     boneyard := [] |}.

(** The lines [swap_text] appends for [adding]. *)
Definition added_lines (adding : string) : list string :=
  if (0 <? String.length adding)%nat then split_nl adding else [].

(** A string without a character that [str.splitlines] breaks at. *)
Fixpoint one_line (s : string) : bool :=
  match s with
  | EmptyString => true
  | String c s' => negb (is_linebreak c) && one_line s'
  end.

(** The texts of the cards written for a buffer [extra]: what [drain]
    puts in [tmpx], or the whole remaining buffer, once per round. *)
Equations? wrap (extra : string) : list string
  by wf (String.length extra) lt :=
  wrap extra with Nat.eq_dec (String.length extra) 0 => {
    | left _ := [];
    | right _ with le_lt_dec (String.length extra) 60 => {
        | right _ :=
            slice 0 (find_stopper extra) extra
              :: wrap (strip (drop (find_stopper extra) extra));
        | left _ := [extra] } }.
Proof.
  wrap_shrinks.
Qed.

(** Cards for [texts], numbered from [ctr] on. *)
Definition number (ctr : nat) (texts : list string) : list string :=
  map (fun kt => card (fst kt) (snd kt))
      (combine (seq ctr (List.length texts)) texts).

(** The texts written for a list of comment strings. *)
Definition texts_of (tablines : list string) : list string :=
  flat_map (fun tabline => wrap (strip tabline)) tablines.



(** The first five conditions of [ready]: nothing fails before the mount
    and unmount steps. *)
Definition ready_to_act (a : Params) (h : Host) : bool :=
  (truthy (path a) || in_state "unmounted" a || in_state "absent" a)
  && (truthy (fs_type a) || in_state "unmounted" a || in_state "absent" a)
  && exists_ds (src a) h
  && (negb (gonna_mount a) || path_exists h
      || match mkdir_error h with None => true | Some _ => false end)
  && (df_rc h =? 0)%nat.

(** [fullcmd] and [fullumcmd] of a run on [h]. *)
Definition fullcmd_of (a : Params) (h : Host) : string :=
  fst (assemble a (fs_type_upper a) (today h)).

Definition parmtext_of (a : Params) (h : Host) : string :=
  snd (assemble a (fs_type_upper a) (today h)).

(** [currently_mounted] between the unmount and the mount step. *)
Definition still_mounted (a : Params) (h : Host) : bool :=
  if gonna_unmount a && mounted_in a h && negb (check_mode h) then false
  else mounted_in a h.

(** The mount and unmount commands a run on [h] hands to
    [module.run_command], in order. *)
Definition issued (a : Params) (h : Host) : list string :=
  ((if gonna_unmount a && mounted_in a h && negb (check_mode h)
    then [fullumcmd_of a (fullcmd_of a h)] else [])
   ++ (if gonna_mount a && negb (still_mounted a h) && negb (check_mode h)
       then [fullcmd_of a h] else []))%list.

(** The host once the mount point is there and [df] has run. *)
Definition prepared (a : Params) (h : Host) : Host :=
  run_command "df" (if gonna_mount a && negb (path_exists h) then mkdir h else h).

(** The host after the unmount and mount steps. *)
Definition acted (a : Params) (h : Host) : Host :=
  let h1 :=
    if gonna_unmount a && mounted_in a h && negb (check_mode h)
    then run_command (fullumcmd_of a (fullcmd_of a h)) (prepared a h)
    else prepared a h in
  if gonna_mount a && negb (still_mounted a h) && negb (check_mode h)
  then run_command (fullcmd_of a h) h1 else h1.

(** The data set a run copies the parmlib member to before rewriting it,
    if any. *)
Definition backup_target (a : Params) : option string :=
  match backup_of a with
  | (true, Some backup_name) =>
      if (0 <? String.length backup_name)%nat then Some backup_name else None
  | _ => None
  end.

(** The host an outcome leaves behind. *)
Definition host_of (o : outcome) : Host :=
  match o with
  | Failed _ h => h
  | Done _ h => h
  end.

(** A [persistent] dictionary that asks for a backup, and one that names
    a data set that does not exist on [sample_host]. *)
Definition sample_persistent_backup : Persistent :=
  {| data_set_name := "SYS1.PARMLIB(BPXPRMAA)"; comments := None;
     backup := true; backup_name := Some "sys1.parmlib(bpxprmab)" |}.

Definition sample_persistent_missing : Persistent :=
  {| data_set_name := "SYS1.PARMLIB(NOTTHERE)"; comments := None;
     backup := false; backup_name := None |}.


Fixpoint all_chars (f : ascii -> bool) (s : string) : bool :=
  match s with
  | EmptyString => true
  | String c s' => f c && all_chars f s'
  end.




(** The first line of the entry written for [src]. *)
Definition mount_line (src : string) : string :=
  "MOUNT FILESYSTEM('" ++ src ++ "')".

(** The two marker lines, without their newline. *)
Definition begin_line (dtstr : string) : string :=
  "/* BEGIN ANSIBLE MANAGED BLOCK " ++ dtstr ++ " */".

Definition end_line (dtstr : string) : string :=
  "/* END ANSIBLE MANAGED BLOCK " ++ dtstr ++ " */".

(** The cards of the header for a value of [comments]. *)
Definition header_cards (comments : option comments_t) : list string :=
  match comments with
  | Some c => cards_of_list (py_iter c) 1
  | None => []
  end.

(** A continuation line of the entry. *)
Definition body_line (f : facet) : string := "      " ++ body_word f.

(** The lines of the entry written for a parameter set: marker, cards,
    mount command with its continuation lines, closing marker. *)
Definition entry_lines (a : Params) (dtstr : string) : list string :=
  (begin_line dtstr :: header_cards (comments_of a)
   ++ [mount_line (src a);
       ("      MOUNTPOINT('" ++ fmt (path a) ++ "')")%string;
       ("      TYPE('" ++ fmt (fs_type_upper a) ++ "')")%string]
   ++ map body_line (facets_of a)
   ++ [end_line dtstr])%list.

(* ===================================================================== *)
(** ** Lemmas on strings *)
(* ===================================================================== *)

Lemma append_assoc (a b c : string) : (a ++ b) ++ c = a ++ b ++ c.
Proof. induction a as [|x a IH]; simpl; [reflexivity | now rewrite IH]. Qed.

Lemma append_nil_r (a : string) : a ++ EmptyString = a.
Proof. induction a as [|x a IH]; simpl; [reflexivity | now rewrite IH]. Qed.

Lemma append_length (a b : string) :
  String.length (a ++ b) = String.length a + String.length b.
Proof. induction a as [|x a IH]; simpl; [reflexivity | now rewrite IH]. Qed.

Lemma strip_length (s : string) : String.length (strip s) <= String.length s.
Proof.
  unfold strip.
  assert (R : forall u, String.length (rstrip u) <= String.length u).
  { induction u as [|c u IH]; simpl; [lia|].
    destruct (rstrip u); [destruct (isspace c)|]; simpl in *; lia. }
  assert (L : forall u, String.length (lstrip u) <= String.length u).
  { induction u as [|c u IH]; simpl; [lia|].
    destruct (isspace c); simpl; lia. }
  specialize (R (lstrip s)). specialize (L s). lia.
Qed.

Lemma drop_length (n : nat) (s : string) :
  String.length (drop n s) = String.length s - n.
Proof.
  revert s; induction n as [|n IH]; intros [|c s]; simpl; auto.
Qed.

Lemma take_length (n : nat) (s : string) :
  String.length (take n s) = Nat.min n (String.length s).
Proof.
  revert s; induction n as [|n IH]; intros [|c s]; simpl; auto.
Qed.

Lemma find_stopper_bounds (extra : string) :
  49 <= find_stopper extra <= 60.
Proof.
  unfold find_stopper.
  destruct (find _ _) as [i|] eqn:E; [|lia].
  apply find_some in E. destruct E as [E _].
  apply in_rev, in_seq in E. lia.
Qed.

Lemma upper_length (s : string) : String.length (upper s) = String.length s.
Proof. induction s as [|c s IH]; simpl; [reflexivity | now rewrite IH]. Qed.

(* ===================================================================== *)
(** ** Lemmas on the comment formatter *)
(* ===================================================================== *)

Lemma cards_of_empty (extra : string) (ctr : nat) :
  String.length extra = 0 -> cards_of extra ctr = [].
Proof.
  intros H. rewrite cards_of_equation_1.
  destruct (Nat.eq_dec (String.length extra) 0); [reflexivity | contradiction].
Qed.

Lemma cards_of_short (extra : string) (ctr : nat) :
  0 < String.length extra <= 60 -> cards_of extra ctr = [card ctr extra].
Proof.
  intros H. rewrite cards_of_equation_1.
  destruct (Nat.eq_dec (String.length extra) 0); [lia|]. simpl.
  destruct (le_lt_dec (String.length extra) 60); [reflexivity | lia].
Qed.

Lemma cards_of_long (extra : string) (ctr : nat) :
  60 < String.length extra ->
  cards_of extra ctr =
  card ctr (slice 0 (find_stopper extra) extra)
    :: cards_of (strip (drop (find_stopper extra) extra)) (S ctr).
Proof.
  intros H. rewrite cards_of_equation_1.
  destruct (Nat.eq_dec (String.length extra) 0); [lia|]. simpl.
  destruct (le_lt_dec (String.length extra) 60); [lia | reflexivity].
Qed.

Lemma drain_cards (parmtext extra : string) (ctr : nat) :
  drain parmtext extra ctr =
  (parmtext ++ cards_text (cards_of extra ctr), EmptyString,
   ctr + List.length (cards_of extra ctr)).
Proof.
  funelim (drain parmtext extra ctr).
  - rewrite cards_of_empty by assumption. simpl.
    destruct extra; [|discriminate].
    now rewrite append_nil_r, Nat.add_0_r.
  - rewrite H, (cards_of_short extra ctr) by lia.
    rewrite (cards_of_empty EmptyString) by reflexivity.
    cbn [cards_text fold_right List.length].
    rewrite !append_assoc, append_nil_r.
    f_equal; try reflexivity; lia.
  - rewrite H, (cards_of_long extra ctr) by lia.
    cbn [cards_text fold_right List.length].
    rewrite !append_assoc.
    f_equal; try reflexivity; lia.
Qed.

Lemma cards_text_app (c1 c2 : list string) :
  cards_text (c1 ++ c2) = cards_text c1 ++ cards_text c2.
Proof.
  induction c1 as [|c c1 IH]; simpl; [reflexivity|].
  now rewrite IH, !append_assoc.
Qed.

Lemma comment_loop_cards (tablines : list string) (parmtext : string) (ctr : nat) :
  comment_loop tablines (parmtext, EmptyString, ctr) =
  (parmtext ++ cards_text (cards_of_list tablines ctr), EmptyString,
   ctr + List.length (cards_of_list tablines ctr)).
Proof.
  revert parmtext ctr.
  induction tablines as [|tabline rest IH]; intros parmtext ctr.
  - cbn. now rewrite append_nil_r, Nat.add_0_r.
  - cbn [comment_loop cards_of_list String.length Nat.ltb Nat.leb append].
    rewrite drain_cards, IH, cards_text_app, append_assoc, length_app.
    f_equal; try reflexivity; lia.
Qed.

Lemma comment_header_cards (dtstr : string) (c : comments_t) :
  comment_header dtstr (Some c) =
  begin_marker dtstr ++ cards_text (cards_of_list (py_iter c) 1).
Proof.
  unfold comment_header. now rewrite comment_loop_cards.
Qed.

Lemma fmt_02d_length (n : nat) : n < 100 -> String.length (fmt_02d n) = 2.
Proof.
  intros H.
  assert (A : forallb (fun k => (String.length (fmt_02d k) =? 2)%nat)
                      (seq 0 100) = true) by (vm_compute; reflexivity).
  rewrite forallb_forall in A.
  apply Nat.eqb_eq, A, in_seq. lia.
Qed.

Lemma card_length (ctr : nat) (text : string) :
  ctr < 100 -> String.length (card ctr text) = 10 + String.length text.
Proof.
  intros H. unfold card.
  rewrite !append_length, fmt_02d_length by assumption. simpl. lia.
Qed.

Lemma slice_0_length (k : nat) (s : string) :
  String.length (slice 0 k s) = Nat.min k (String.length s).
Proof.
  unfold slice. rewrite take_length, drop_length. lia.
Qed.

Lemma cards_of_bound (n : nat) :
  forall extra ctr,
    String.length extra <= n ->
    49 * ctr + String.length extra <= 4900 ->
    Forall (fun c => String.length c <= 70) (cards_of extra ctr).
Proof.
  induction n as [|n IH]; intros extra ctr Hn Hc.
  - rewrite cards_of_empty by lia. constructor.
  - destruct (Nat.eq_dec (String.length extra) 0) as [E|E].
    + rewrite cards_of_empty by assumption. constructor.
    + destruct (le_lt_dec (String.length extra) 60) as [L|L].
      * rewrite cards_of_short by lia.
        constructor; [|constructor].
        rewrite card_length by lia. lia.
      * rewrite cards_of_long by assumption.
        pose proof (find_stopper_bounds extra) as B.
        pose proof (strip_length (drop (find_stopper extra) extra)) as S.
        rewrite drop_length in S.
        constructor.
        -- rewrite card_length, slice_0_length by lia. lia.
        -- apply IH; lia.
Qed.

(* ===================================================================== *)
(** ** Lemmas on the command builders *)
(* ===================================================================== *)

Lemma cmd_render_app (f g : list facet) :
  cmd_render (f ++ g) = cmd_render f ++ cmd_render g.
Proof.
  induction f as [|x f IH]; simpl; [reflexivity|].
  now rewrite IH, !append_assoc.
Qed.

Lemma body_render_app (f g : list facet) :
  body_render (f ++ g) = body_render f ++ body_render g.
Proof.
  induction f as [|x f IH]; simpl; [reflexivity|].
  now rewrite IH, !append_assoc.
Qed.

Ltac norm_strings :=
  cbn [cmd_render body_render fold_right cmd_word body_word opt_list option_map];
  rewrite ?append_assoc, ?append_nil_r; try reflexivity.

Lemma add_mode_appends (a : Params) :
  appends (add_mode a) [Mode (mode_subcmd a)].
Proof. intros c p. unfold add_mode. norm_strings. Qed.

Lemma add_src_params_appends (a : Params) :
  appends (add_src_params a)
          (opt_list (option_map Parm (given 2 (src_params a)))).
Proof.
  intros c p. unfold add_src_params, given.
  destruct (src_params a) as [sp|]; [|norm_strings].
  change (1 <? String.length sp)%nat with (2 <=? String.length sp)%nat.
  destruct (2 <=? String.length sp)%nat; norm_strings.
Qed.

Lemma add_tag_appends (a : Params) :
  appends (add_tag a)
          (opt_list (option_map (fun tu => Tag tu (fmt (tag_ccsid a)))
                                (given 1 (tag_untagged a)))).
Proof.
  intros c p. unfold add_tag, given.
  destruct (tag_untagged a) as [tu|]; [|norm_strings].
  change (0 <? String.length tu)%nat with (1 <=? String.length tu)%nat.
  destruct (1 <=? String.length tu)%nat; norm_strings.
Qed.

Lemma add_setuid_appends (a : Params) :
  appends (add_setuid a) [Setuid (allow_uid a)].
Proof.
  intros c p. unfold add_setuid. destruct (allow_uid a); norm_strings.
Qed.

Lemma add_wait_appends (a : Params) :
  appends (add_wait a)
          [Wait (negb (contains "NOWAIT" (mount_opts a)
                       || contains "nowait" (mount_opts a)))].
Proof.
  intros c p. unfold add_wait.
  destruct (contains "NOWAIT" (mount_opts a) || contains "nowait" (mount_opts a));
    norm_strings.
Qed.

Lemma add_security_appends (a : Params) :
  appends (add_security a)
          [Security (negb (contains "NOSECURITY" (mount_opts a)
                           || contains "nosecurity" (mount_opts a)))].
Proof.
  intros c p. unfold add_security.
  destruct (contains "NOSECURITY" (mount_opts a)
            || contains "nosecurity" (mount_opts a)); norm_strings.
Qed.

Lemma add_sysname_appends (a : Params) :
  appends (add_sysname a)
          (opt_list (option_map Sysname
             (match given 1 (sysname a) with
              | Some sn => if (String.length sn <? 9)%nat then Some sn else None
              | None => None
              end))).
Proof.
  intros c p. unfold add_sysname, given.
  destruct (sysname a) as [sn|]; [|norm_strings].
  change (0 <? String.length sn)%nat with (1 <=? String.length sn)%nat.
  destruct (1 <=? String.length sn)%nat; [|norm_strings].
  destruct (String.length sn <? 9)%nat; norm_strings.
Qed.

Lemma add_automove_appends (a : Params) :
  appends (add_automove a)
          (opt_list (option_map (fun am => Automove am (given 2 (automove_list a)))
                                (given 2 (automove a)))).
Proof.
  intros c p. unfold add_automove, given.
  destruct (automove a) as [am|]; [|norm_strings].
  change (1 <? String.length am)%nat with (2 <=? String.length am)%nat.
  destruct (2 <=? String.length am)%nat; [|norm_strings].
  destruct (automove_list a) as [al|]; [|norm_strings].
  change (1 <? String.length al)%nat with (2 <=? String.length al)%nat.
  destruct (2 <=? String.length al)%nat; norm_strings.
Qed.

Lemma appends_compose (f g : cmd_pair -> cmd_pair) (fs gs : list facet) :
  appends f fs -> appends g gs -> appends (fun c => g (f c)) (fs ++ gs).
Proof.
  intros F G c p. rewrite F, G, cmd_render_app, body_render_app.
  now rewrite !append_assoc.
Qed.

(** Both texts built by [build_mount] are their head followed by the
    words of one and the same list of facets. *)
Lemma build_mount_facets (a : Params) (fs_type : option string) (parmtext : string) :
  build_mount a fs_type parmtext =
  (fst (mount_head a fs_type EmptyString) ++ cmd_render (facets_of a),
   (parmtext ++ snd (mount_head a fs_type EmptyString))
     ++ body_render (facets_of a)).
Proof.
  pose proof
    (appends_compose _ _ _ _ (add_mode_appends a)
      (appends_compose _ _ _ _ (add_src_params_appends a)
        (appends_compose _ _ _ _ (add_tag_appends a)
          (appends_compose _ _ _ _ (add_setuid_appends a)
            (appends_compose _ _ _ _ (add_wait_appends a)
              (appends_compose _ _ _ _ (add_security_appends a)
                (appends_compose _ _ _ _ (add_sysname_appends a)
                  (add_automove_appends a)))))))) as H.
  unfold build_mount, mount_head. cbn [fst snd append].
  exact (H _ _).
Qed.

Lemma facets_of_sorted (a : Params) :
  Sorted.StronglySorted lt (map rank (facets_of a)).
Proof.
  unfold facets_of.
  destruct (given 2 (src_params a)), (given 1 (tag_untagged a)),
    (given 1 (sysname a)) as [sn|], (given 2 (automove a));
    try destruct (String.length sn <? 9)%nat; cbn;
    repeat (constructor; [|repeat (constructor; try lia)]); constructor.
Qed.

Lemma given_spec (n : nat) (o : option string) (s : string) :
  given n o = Some s <-> o = Some s /\ n <= String.length s.
Proof.
  unfold given. destruct o as [x|].
  - destruct (Nat.leb_spec n (String.length x)); split.
    + intros E; inversion E; subst; auto.
    + intros [E _]; exact E.
    + discriminate.
    + intros [E L]; inversion E; subst; lia.
  - split; [discriminate | intros [E _]; discriminate].
Qed.

(** Which optional words [facets_of] holds. *)
Lemma facets_of_parm (a : Params) (sp : string) :
  In (Parm sp) (facets_of a) <->
  src_params a = Some sp /\ 2 <= String.length sp.
Proof.
  rewrite <- given_spec. unfold facets_of.
  destruct (given 2 (src_params a)), (given 1 (tag_untagged a)),
    (given 1 (sysname a)) as [sn|], (given 2 (automove a));
    try destruct (String.length sn <? 9)%nat; cbn;
    intuition (try discriminate; try congruence).
Qed.

Lemma facets_of_tag (a : Params) (tu cc : string) :
  In (Tag tu cc) (facets_of a) <->
  tag_untagged a = Some tu /\ 1 <= String.length tu /\ cc = fmt (tag_ccsid a).
Proof.
  rewrite <- and_assoc, <- given_spec. unfold facets_of.
  destruct (given 2 (src_params a)), (given 1 (tag_untagged a)),
    (given 1 (sysname a)) as [sn|], (given 2 (automove a));
    try destruct (String.length sn <? 9)%nat; cbn;
    intuition (try discriminate; try congruence).
Qed.

Lemma facets_of_sysname (a : Params) (sn : string) :
  In (Sysname sn) (facets_of a) <->
  sysname a = Some sn /\ 1 <= String.length sn <= 8.
Proof.
  assert (G : sysname a = Some sn /\ 1 <= String.length sn <= 8 <->
              given 1 (sysname a) = Some sn /\ String.length sn < 9)
    by (rewrite given_spec; intuition lia).
  rewrite G. unfold facets_of.
  destruct (given 2 (src_params a)), (given 1 (tag_untagged a)),
    (given 1 (sysname a)) as [x|], (given 2 (automove a));
    try destruct (Nat.ltb_spec (String.length x) 9); cbn;
    intuition (try discriminate; try congruence);
    repeat match goal with
           | E : Sysname _ = Sysname _ |- _ => inversion E; subst; clear E
           | E : Some _ = Some _ |- _ => inversion E; subst; clear E
           end; auto; try lia.
Qed.

Lemma facets_of_automove (a : Params) (am : string) (al : option string) :
  In (Automove am al) (facets_of a) <->
  automove a = Some am /\ 2 <= String.length am
  /\ al = given 2 (automove_list a).
Proof.
  rewrite <- and_assoc, <- given_spec. unfold facets_of.
  destruct (given 2 (src_params a)), (given 1 (tag_untagged a)),
    (given 1 (sysname a)) as [sn|], (given 2 (automove a));
    try destruct (String.length sn <? 9)%nat; cbn;
    intuition (try discriminate; try congruence).
Qed.

(** The fixed words are always there. *)
Lemma facets_of_fixed (a : Params) :
  In (Mode (mode_subcmd a)) (facets_of a)
  /\ In (Setuid (allow_uid a)) (facets_of a)
  /\ (exists w, In (Wait w) (facets_of a))
  /\ (exists s, In (Security s) (facets_of a)).
Proof.
  unfold facets_of. repeat split; [| | eexists | eexists];
    repeat (rewrite in_app_iff; cbn); eauto 8.
Qed.

Lemma state_mounted_flags (a : Params) :
  state a = "mounted" -> gonna_mount a = true /\ gonna_unmount a = false.
Proof.
  intros E. unfold gonna_mount, gonna_unmount, in_state. rewrite E.
  split; reflexivity.
Qed.

Lemma assemble_mounting (a : Params) (dtstr : string) :
  gonna_mount a = true ->
  assemble a (fs_type_upper a) dtstr =
  (cmd_head a ++ cmd_render (facets_of a),
   comment_header dtstr (comments_of a) ++ body_head a
     ++ body_render (facets_of a) ++ parmtail_of (begin_marker dtstr)).
Proof.
  intros G. unfold assemble. rewrite G, build_mount_facets.
  unfold cmd_head, body_head, mount_head. cbn [fst snd].
  repeat (progress (rewrite ?append_assoc; cbn [append])). reflexivity.
Qed.

(* ===================================================================== *)
(** ** Lemmas on [run_module] *)
(* ===================================================================== *)

Lemma unmount_step_spec (a : Params) (fullumcmd comment : string)
  (changed cm : bool) (h : Host) :
  exists comment' h',
    unmount_step a fullumcmd (changed, comment, cm) h =
      (changed || (gonna_unmount a && cm), comment',
       if gonna_unmount a && cm && negb (check_mode h) then false else cm, h')
    /\ catalog h' = catalog h /\ check_mode h' = check_mode h.
Proof.
  unfold unmount_step.
  destruct (gonna_unmount a), cm, (check_mode h) eqn:C; cbn;
    rewrite ?orb_true_r, ?orb_false_r;
    eexists; eexists; (split; [reflexivity | split; [reflexivity | ]]);
    cbn; congruence.
Qed.

Lemma mount_step_spec (a : Params) (fullcmd comment : string)
  (changed cm : bool) (h : Host) :
  exists comment' h',
    mount_step a fullcmd (changed, comment, cm) h =
      (changed || (gonna_mount a && negb cm), comment', cm, h')
    /\ catalog h' = catalog h /\ check_mode h' = check_mode h.
Proof.
  unfold mount_step.
  destruct (gonna_mount a), cm, (check_mode h) eqn:C; cbn;
    rewrite ?orb_true_r, ?orb_false_r;
    eexists; eexists; (split; [reflexivity | split; [reflexivity | ]]);
    cbn; congruence.
Qed.

Lemma run_module_done (a : Params) (h : Host) (r : Result) (h' : Host) :
  run_module a h = Done r h' ->
  let fullcmd := fst (assemble a (fs_type_upper a) (today h)) in
  cmd r = fullcmd ++ fullumcmd_of a fullcmd
  /\ changed r = changed_of a (check_mode h) (mounted_in a h).
Proof.
  unfold run_module. fold (fs_type_upper a).
  destruct (negb (truthy (path a)) && _); [discriminate|].
  destruct (negb (truthy (fs_type a)) && _); [discriminate|].
  destruct (negb (exists_ds (src a) h)); [discriminate|].
  set (mounting := if gonna_mount a then _ else _).
  assert (HM : forall x, mounting = inr x ->
             catalog (snd x) = catalog h /\ check_mode (snd x) = check_mode h
             /\ df_rc (snd x) = df_rc h /\ df_stdout (snd x) = df_stdout h
             /\ today (snd x) = today h).
  { subst mounting. intros x.
    destruct (gonna_mount a); [destruct (path_exists h); [|destruct (mkdir_error h)]|];
      intros E; inversion E; subst; cbn; auto. }
  destruct mounting as [err|[comment0 h0]]; [discriminate|].
  destruct (HM _ eq_refl) as (Hcat & Hchk & Hrc & Hout & Hday).
  cbn [snd] in Hcat, Hchk, Hrc, Hout, Hday. clear HM.
  cbv zeta.
  destruct (negb (df_rc (run_command "df" h0) =? 0)%nat); [discriminate|].
  replace (mounted_in a (run_command "df" h0)) with (mounted_in a h)
    by (unfold mounted_in; cbn [df_stdout run_command]; now rewrite Hout).
  replace (today (run_command "df" h0)) with (today h) by (symmetry; exact Hday).
  destruct (assemble a (fs_type_upper a) (today h)) as [fullcmd parmtext].
  fold (fullumcmd_of a fullcmd).
  destruct (unmount_step_spec a (fullumcmd_of a fullcmd) comment0 false
              (mounted_in a h) (run_command "df" h0)) as (c1 & h1 & U & Uc & Uk).
  rewrite U.
  destruct (mount_step_spec a fullcmd c1 (false || (gonna_unmount a && mounted_in a h))
              (if gonna_unmount a && mounted_in a h
                    && negb (check_mode (run_command "df" h0))
               then false else mounted_in a h) h1) as (c2 & h2 & M & Mc & Mk).
  rewrite M. cbn [fst].
  assert (CH : false || gonna_unmount a && mounted_in a h
               || gonna_mount a
                  && negb (if gonna_unmount a && mounted_in a h
                                && negb (check_mode (run_command "df" h0))
                           then false else mounted_in a h)
               = changed_of a (check_mode h) (mounted_in a h)).
  { unfold changed_of. cbn [check_mode run_command orb]. now rewrite Hchk. }
  rewrite CH.
  destruct (write_persistent a && negb (check_mode h2)).
  - destruct (persistent a) as [p|].
    + destruct (catalog h2 (upper (data_set_name p))); [|discriminate].
      destruct (persist a _ _ _ _ _) as [c3 h3].
      intros E; inversion E; subst; cbn; auto.
    + intros E; inversion E; subst; cbn; auto.
  - intros E; inversion E; subst; cbn; auto.
Qed.

Lemma run_module_completes (a : Params) (h : Host) :
  ready a h = true -> exists r h', run_module a h = Done r h'.
Proof.
  unfold ready. rewrite !andb_true_iff.
  intros (((((P & F) & X) & M) & D) & W).
  unfold run_module. fold (fs_type_upper a).
  replace (negb (truthy (path a))
           && (negb (in_state "unmounted" a) && negb (in_state "absent" a)))
    with false
    by (destruct (truthy (path a)), (in_state "unmounted" a),
          (in_state "absent" a); cbn in *; congruence).
  replace (negb (truthy (fs_type a))
           && (negb (in_state "unmounted" a) && negb (in_state "absent" a)))
    with false
    by (destruct (truthy (fs_type a)), (in_state "unmounted" a),
          (in_state "absent" a); cbn in *; congruence).
  rewrite X. cbn [negb].
  set (mounting := if gonna_mount a then _ else _).
  assert (HM : exists c0 h0, mounting = inr (c0, h0)
                 /\ catalog h0 = catalog h /\ check_mode h0 = check_mode h
                 /\ df_rc h0 = df_rc h).
  { subst mounting.
    destruct (gonna_mount a); [destruct (path_exists h);
                               [|destruct (mkdir_error h); [discriminate|]]|];
      eexists; eexists; (split; [reflexivity|]); cbn; auto. }
  destruct HM as (c0 & h0 & -> & Hcat & Hchk & Hrc).
  cbv zeta.
  replace (df_rc (run_command "df" h0)) with (df_rc h) by (symmetry; exact Hrc).
  rewrite D. cbn [negb].
  destruct (assemble a (fs_type_upper a) (today (run_command "df" h0)))
    as [fullcmd parmtext].
  destruct (unmount_step_spec a (fullumcmd_of a fullcmd) c0 false
              (mounted_in a (run_command "df" h0)) (run_command "df" h0))
    as (c1 & h1 & U & Uc & Uk).
  fold (fullumcmd_of a fullcmd). rewrite U.
  match goal with
  | |- context [mount_step a fullcmd (?ch, c1, ?cm) h1] =>
      destruct (mount_step_spec a fullcmd c1 ch cm h1) as (c2 & h2 & Mo & Mc & Mk);
      rewrite Mo
  end.
  assert (K : check_mode h2 = check_mode h)
    by (rewrite Mk, Uk; cbn [check_mode run_command]; exact Hchk).
  assert (C : catalog h2 = catalog h)
    by (rewrite Mc, Uc; cbn [catalog run_command]; exact Hcat).
  rewrite K.
  destruct (write_persistent a && negb (check_mode h)); [|eauto].
  destruct (persistent a) as [p|]; [|eauto].
  cbn [negb orb] in W. unfold exists_ds in W. rewrite C.
  destruct (catalog h (upper (data_set_name p))); [|discriminate].
  destruct (persist a _ _ _ _ _). eauto.
Qed.

Lemma persist_spec (a : Params) (dsn text parmtext comment : string) (h : Host) :
  exists c h',
    persist a dsn text parmtext comment h = (c, h')
    /\ catalog h' dsn = Some (swap_text (splitlines text) parmtext (src a))
    /\ last (commands h') EmptyString =
         "cp " ++ tmp_file_filename h' ++ " " ++ dq ++ "//'" ++ dsn ++ "'" ++ dq.
Proof.
  unfold persist. cbn [py_ne].
  destruct (backup_of a) as [[|] [bn|]];
    try destruct (0 <? String.length bn)%nat;
    eexists; eexists; (split; [reflexivity|]);
    cbn [catalog copy_to commands run_command tmp_file_filename];
    rewrite String.eqb_refl, last_last; split; reflexivity.
Qed.

(** What a completed run does to the parmlib member once
    [write_persistent] is set and check mode is off. *)
Lemma run_module_store (a : Params) (h : Host) (r : Result) (h' : Host) :
  run_module a h = Done r h' ->
  write_persistent a = true ->
  check_mode h = false ->
  exists p text,
    persistent a = Some p
    /\ catalog h (upper (data_set_name p)) = Some text
    /\ catalog h' (upper (data_set_name p)) =
         Some (swap_text (splitlines text)
                 (snd (assemble a (fs_type_upper a) (today h))) (src a))
    /\ last (commands h') EmptyString =
         "cp " ++ tmp_file_filename h' ++ " " ++ dq ++ "//'"
           ++ upper (data_set_name p) ++ "'" ++ dq.
Proof.
  intros R W K. revert R.
  unfold run_module. fold (fs_type_upper a).
  destruct (negb (truthy (path a)) && _); [discriminate|].
  destruct (negb (truthy (fs_type a)) && _); [discriminate|].
  destruct (negb (exists_ds (src a) h)); [discriminate|].
  set (mounting := if gonna_mount a then _ else _).
  assert (HM : forall x, mounting = inr x ->
             catalog (snd x) = catalog h /\ check_mode (snd x) = check_mode h
             /\ today (snd x) = today h).
  { subst mounting. intros x.
    destruct (gonna_mount a); [destruct (path_exists h); [|destruct (mkdir_error h)]|];
      intros E; inversion E; subst; cbn; auto. }
  destruct mounting as [err|[comment0 h0]]; [discriminate|].
  destruct (HM _ eq_refl) as (Hcat & Hchk & Hday).
  cbn [snd] in Hcat, Hchk, Hday. clear HM.
  cbv zeta.
  destruct (negb (df_rc (run_command "df" h0) =? 0)%nat); [discriminate|].
  replace (today (run_command "df" h0)) with (today h) by (symmetry; exact Hday).
  destruct (assemble a (fs_type_upper a) (today h)) as [fullcmd parmtext].
  fold (fullumcmd_of a fullcmd).
  destruct (unmount_step_spec a (fullumcmd_of a fullcmd) comment0 false
              (mounted_in a (run_command "df" h0)) (run_command "df" h0))
    as (c1 & h1 & U & Uc & Uk).
  rewrite U.
  match goal with
  | |- context [mount_step a fullcmd (?ch, c1, ?cm) h1] =>
      destruct (mount_step_spec a fullcmd c1 ch cm h1) as (c2 & h2 & Mo & Mc & Mk);
      rewrite Mo
  end.
  assert (K2 : check_mode h2 = false)
    by (rewrite Mk, Uk; cbn [check_mode run_command]; congruence).
  assert (C : catalog h2 = catalog h)
    by (rewrite Mc, Uc; cbn [catalog run_command]; exact Hcat).
  rewrite W, K2. cbn [negb andb].
  destruct (persistent a) as [p|] eqn:P.
  - rewrite C.
    destruct (catalog h (upper (data_set_name p))) as [text|] eqn:T; [|discriminate].
    destruct (persist_spec a (upper (data_set_name p)) text parmtext c2 h2)
      as (c3 & h3 & E & S1 & S2).
    rewrite E. intros R. inversion R; subst.
    exists p, text. cbn [snd]. auto.
  - unfold write_persistent in W. rewrite P, andb_false_r in W. discriminate.
Qed.

(* ===================================================================== *)
(** ** Lemmas on the backward walk of [swap_text] *)
(* ===================================================================== *)

Lemma find_all_false {A : Type} (f : A -> bool) (l : list A) :
  (forall x, In x l -> f x = false) -> find f l = None.
Proof.
  induction l as [|x l IH]; intros H; simpl; [reflexivity|].
  rewrite (H x (or_introl eq_refl)). apply IH.
  intros y Hy. apply H. now right.
Qed.

Lemma find_first_true {A : Type} (f : A -> bool) (l1 l2 : list A) (x : A) :
  (forall y, In y l1 -> f y = false) -> f x = true ->
  find f (l1 ++ x :: l2) = Some x.
Proof.
  induction l1 as [|y l1 IH]; intros H Hx; simpl.
  - now rewrite Hx.
  - rewrite (H y (or_introl eq_refl)). apply IH; [|exact Hx].
    intros z Hz. apply H. now right.
Qed.

(** The walk never looks at line 0: when every line from 1 up to the
    matched line is a comment card, the span starts at the matched line,
    whatever line 0 holds. *)
Lemma walk_back_never_reaches_top (content_lines : list string) (index : nat) :
  (forall k, 1 <= k < index ->
             stops_walk (nth k content_lines EmptyString) = false) ->
  walk_back content_lines index = index.
Proof.
  intros H. unfold walk_back.
  rewrite find_all_false; [reflexivity|].
  intros k Hk. apply in_rev, in_seq in Hk. apply H. lia.
Qed.

(** From line 1 on the walk does stop at the marker above the cards. *)
Lemma walk_back_reaches_marker (content_lines : list string) (index j : nat) :
  1 <= j < index ->
  stops_walk (nth j content_lines EmptyString) = true ->
  (forall k, j < k < index ->
             stops_walk (nth k content_lines EmptyString) = false) ->
  walk_back content_lines index = j.
Proof.
  intros J Hj H. unfold walk_back.
  replace (index - 1) with ((j - 1) + S (index - 1 - j)) by lia.
  rewrite seq_app, rev_app_distr.
  replace (1 + (j - 1)) with j by lia.
  cbn [seq rev]. rewrite <- app_assoc. cbn [app].
  rewrite find_first_true; [reflexivity | | exact Hj].
  intros k Hk. apply in_rev, in_seq in Hk. apply H. lia.
Qed.

(* ===================================================================== *)
(** ** Properties of the comment formatter *)
(* ===================================================================== *)

(** C6.  The formatter does not join the input strings into one buffer:
    the inner loop empties the buffer before the next string is read, so
    the comment list [["a"; "b"]] gives two cards, [C01] holding [a] and
    [C02] holding [b], and not one card holding [a b]. *)
Theorem two_comments_two_cards (dtstr : string) :
  comment_header dtstr (Some (CommentsList ["a"; "b"])) =
    begin_marker dtstr ++ "/* C01:a */" ++ nl ++ "/* C02:b */" ++ nl
  /\ comment_header dtstr (Some (CommentsList ["a"; "b"])) <>
    begin_marker dtstr ++ "/* C01:a b */" ++ nl.
Proof.
  rewrite comment_header_cards.
  assert (E : cards_of_list (py_iter (CommentsList ["a"; "b"])) 1 =
              ["/* C01:a */"; "/* C02:b */"]) by (vm_compute; reflexivity).
  rewrite E. split; [reflexivity|].
  intros H.
  assert (L : forall p x y : string, p ++ x = p ++ y -> x = y).
  { induction p as [|c p IH]; simpl; intros x y K; [exact K|].
    injection K as K. now apply IH. }
  apply L in H. discriminate H.
Qed.

(** C7.  Without a [persistent] dictionary [comments] is the string
    [no comments provided] itself, which the formatter walks character by
    character: the header holds eighteen cards of one character each,
    not one card with the whole text. *)
Theorem default_comment_is_split_by_character (a : Params) (dtstr : string) :
  persistent a = None ->
  comment_header dtstr (comments_of a) =
    begin_marker dtstr
    ++ cards_text
         ["/* C01:n */"; "/* C02:o */"; "/* C03:c */"; "/* C04:o */";
          "/* C05:m */"; "/* C06:m */"; "/* C07:e */"; "/* C08:n */";
          "/* C09:t */"; "/* C10:s */"; "/* C11:p */"; "/* C12:r */";
          "/* C13:o */"; "/* C14:v */"; "/* C15:i */"; "/* C16:d */";
          "/* C17:e */"; "/* C18:d */"].
Proof.
  intros H. unfold comments_of. rewrite H.
  rewrite comment_header_cards.
  f_equal; vm_compute; reflexivity.
Qed.

Lemma default_comment_is_split_by_character_witness :
  comment_header "20200101-000000"
    (comments_of (sample_params "mounted" None (Some "NORMAL") (Some EmptyString)))
  = begin_marker "20200101-000000"
    ++ "/* C01:n */" ++ nl ++ "/* C02:o */" ++ nl ++ "/* C03:c */" ++ nl
    ++ "/* C04:o */" ++ nl ++ "/* C05:m */" ++ nl ++ "/* C06:m */" ++ nl
    ++ "/* C07:e */" ++ nl ++ "/* C08:n */" ++ nl ++ "/* C09:t */" ++ nl
    ++ "/* C10:s */" ++ nl ++ "/* C11:p */" ++ nl ++ "/* C12:r */" ++ nl
    ++ "/* C13:o */" ++ nl ++ "/* C14:v */" ++ nl ++ "/* C15:i */" ++ nl
    ++ "/* C16:d */" ++ nl ++ "/* C17:e */" ++ nl ++ "/* C18:d */" ++ nl.
Proof.
  exact (default_comment_is_split_by_character
           (sample_params "mounted" None (Some "NORMAL") (Some EmptyString))
           "20200101-000000" eq_refl).
Defined.


(** C8, as stated, fails: a card holds up to sixty characters of text
    between a seven-character prefix and a three-character suffix, and
    the first card written for [long_comment] is seventy characters
    long. *)
Lemma long_comment_card_exceeds_63 :
  String.length long_comment = 200
  /\ comment_header "20200101-000000" (Some (CommentsList [long_comment])) =
       begin_marker "20200101-000000"
       ++ cards_text (cards_of (strip long_comment) 1)
  /\ ~ Forall (fun c => String.length c <= 63) (cards_of (strip long_comment) 1).
Proof.
  split; [reflexivity|]. split.
  - rewrite comment_header_cards. cbn [py_iter cards_of_list].
    now rewrite app_nil_r.
  - intros H.
    assert (E : exists c rest,
               cards_of (strip long_comment) 1 = c :: rest
               /\ String.length c = 70).
    { eexists; eexists. split; [vm_compute; reflexivity | reflexivity]. }
    destruct E as (c & rest & E & L).
    rewrite E in H. apply Forall_inv in H. lia.
Qed.

(** C8, amended.  For a single comment string of length 200 the header is
    the marker line followed by the cards of the stripped string, and
    every card, prefix and suffix included, is at most 70 characters
    long. *)
Theorem card_lines_at_most_70 (dtstr s : string) :
  String.length s = 200 ->
  comment_header dtstr (Some (CommentsList [s])) =
    begin_marker dtstr ++ cards_text (cards_of (strip s) 1)
  /\ Forall (fun c => String.length c <= 70) (cards_of (strip s) 1).
Proof.
  intros H. split.
  - rewrite comment_header_cards. cbn [py_iter cards_of_list].
    now rewrite app_nil_r.
  - pose proof (strip_length s) as L.
    apply (cards_of_bound 200); lia.
Qed.

Lemma card_lines_at_most_70_witness :
  String.length long_comment = 200
  /\ Forall (fun c => String.length c <= 70) (cards_of (strip long_comment) 1).
Proof.
  split; [reflexivity|].
  apply (card_lines_at_most_70 "20200101-000000" long_comment). reflexivity.
Defined.

(* ===================================================================== *)
(** ** Properties of the command builders *)
(* ===================================================================== *)

(** C3, as stated, fails: with [state=mounted], the data set not mounted
    and [src_params] set to the one-character string [X], the run
    completes and its command holds no [PARM] word. *)
Lemma one_character_src_params_is_dropped :
  let a := sample_params "mounted" None (Some "NORMAL") (Some "X") in
  let h := sample_host false EmptyString EmptyString in
  state a = "mounted" /\ mounted_in a h = false
  /\ src_params a = Some "X" /\ String.length "X" <> 0
  /\ exists r h',
       run_module a h = Done r h'
       /\ cmd r = "tsocmd MOUNT FILESYSTEM\( \'USER.DATA.ZFS\' \) MOUNTPOINT\( \'/u/core\' \) TYPE\( 'ZFS' \) MODE\(RDWR\) SETUID WAIT SECURITY AUTOMOVE"
       /\ contains "PARM" (cmd r) = false.
Proof.
  cbv zeta. repeat split; try discriminate.
  eexists; eexists. split; [vm_compute; reflexivity|].
  split; reflexivity.
Qed.

(** C3, amended.  With [state=mounted] and the data set not mounted, the
    command of a completed run is the head (resource, path, type)
    followed by the words of [facets_of], one blank before each.  Those
    words stand in the documented order; the mode, setuid, wait and
    security words are always among them; [PARM] is there exactly when
    [src_params] has at least two characters, [TAG] exactly when
    [tag_untagged] is not empty, [SYSNAME] exactly when [sysname] has
    one to eight characters, and the automove word exactly when
    [automove] has at least two characters, carrying the list when that
    has at least two characters. *)
Theorem mount_command_keywords (a : Params) (h : Host) (r : Result) (h' : Host) :
  state a = "mounted" ->
  mounted_in a h = false ->
  run_module a h = Done r h' ->
  cmd r = cmd_head a ++ cmd_render (facets_of a)
  /\ StronglySorted lt (map rank (facets_of a))
  /\ In (Mode (mode_subcmd a)) (facets_of a)
  /\ In (Setuid (allow_uid a)) (facets_of a)
  /\ (exists w, In (Wait w) (facets_of a))
  /\ (exists s, In (Security s) (facets_of a))
  /\ (forall sp, In (Parm sp) (facets_of a) <->
                 src_params a = Some sp /\ 2 <= String.length sp)
  /\ (forall tu cc, In (Tag tu cc) (facets_of a) <->
                    tag_untagged a = Some tu /\ 1 <= String.length tu
                    /\ cc = fmt (tag_ccsid a))
  /\ (forall sn, In (Sysname sn) (facets_of a) <->
                 sysname a = Some sn /\ 1 <= String.length sn <= 8)
  /\ (forall am al, In (Automove am al) (facets_of a) <->
                    automove a = Some am /\ 2 <= String.length am
                    /\ al = given 2 (automove_list a)).
Proof.
  intros S _ R.
  destruct (state_mounted_flags a S) as [GM GU].
  destruct (run_module_done a h r h' R) as [C _].
  rewrite (assemble_mounting a (today h) GM) in C. cbn [fst] in C.
  unfold fullumcmd_of in C. rewrite GU, append_nil_r in C.
  split; [exact C|]. split; [apply facets_of_sorted|].
  destruct (facets_of_fixed a) as (F1 & F2 & F3 & F4).
  repeat (split; [assumption|]).
  split; [intros; apply facets_of_parm|].
  split; [intros; apply facets_of_tag|].
  split; [intros; apply facets_of_sysname | intros; apply facets_of_automove].
Qed.

Lemma mount_command_keywords_witness :
  exists r,
    cmd r = "tsocmd MOUNT FILESYSTEM\( \'USER.DATA.ZFS\' \) MOUNTPOINT\( \'/u/core\' \) TYPE\( 'ZFS' \) MODE\(RDWR\) PARM\(\'D(101)\'\) SETUID WAIT SECURITY AUTOMOVE".
Proof.
  pose (a := sample_params "mounted" None (Some "NORMAL") (Some "D(101)")).
  pose (h := sample_host false EmptyString EmptyString).
  destruct (run_module_completes a h eq_refl) as (r & h' & R).
  exists r.
  destruct (mount_command_keywords a h r h' eq_refl eq_refl R) as [C _].
  rewrite C. vm_compute. reflexivity.
Defined.

(** C9.  For every parameter set that is being mounted, the command line
    and the parmlib entry are each a head followed by the words of one
    and the same list of facets: a facet is in the one exactly when it
    is in the other, with the same values. *)
Theorem command_and_entry_agree (a : Params) (dtstr : string) :
  gonna_mount a = true ->
  exists facets : list facet,
    assemble a (fs_type_upper a) dtstr =
    (cmd_head a ++ cmd_render facets,
     comment_header dtstr (comments_of a) ++ body_head a
       ++ body_render facets ++ parmtail_of (begin_marker dtstr)).
Proof.
  intros G. exists (facets_of a). now apply assemble_mounting.
Qed.

Lemma command_and_entry_agree_witness :
  exists facets : list facet,
    assemble (sample_params "mounted" None (Some "NORMAL") (Some "D(101)"))
             (Some "ZFS") "20200101-000000" =
    ("tsocmd MOUNT FILESYSTEM\( \'USER.DATA.ZFS\' \) MOUNTPOINT\( \'/u/core\' \) TYPE\( 'ZFS' \)"
       ++ cmd_render facets,
     comment_header "20200101-000000" (Some (CommentsStr "no comments provided"))
       ++ body_head (sample_params "mounted" None (Some "NORMAL") (Some "D(101)"))
       ++ body_render facets ++ parmtail_of (begin_marker "20200101-000000")).
Proof.
  exact (command_and_entry_agree
           (sample_params "mounted" None (Some "NORMAL") (Some "D(101)"))
           "20200101-000000" eq_refl).
Defined.

(** C2.  The unmount command of a completed run with [state=unmounted]
    or [state=absent].  When [unmount_opts] has two characters or more
    the command is the command word and the resource id alone: the mode
    is never appended, whichever mode was asked for.  When [unmount_opts]
    is unset or shorter, the command is a blank and [NORMAL] after the
    (here empty) mount command, without the resource id. *)
Theorem unmount_command_omits_mode (a : Params) (h : Host) (r : Result)
  (h' : Host) :
  state a = "unmounted" \/ state a = "absent" ->
  run_module a h = Done r h' ->
  (forall uo, unmount_opts a = Some uo -> 2 <= String.length uo ->
              cmd r = "tsocmd UNMOUNT FILESYSTEM\(\'" ++ src a ++ "\'\)")
  /\ (unmount_opts a = None
      \/ (exists uo, unmount_opts a = Some uo /\ String.length uo < 2) ->
      cmd r = " NORMAL").
Proof.
  intros S R.
  destruct (run_module_done a h r h' R) as [C _].
  unfold assemble, fullumcmd_of, gonna_mount, gonna_unmount, in_state in C.
  assert (E : cmd r = build_unmount a EmptyString)
    by (destruct S as [S|S]; rewrite S in C; exact C).
  rewrite E. unfold build_unmount. split.
  - intros uo U L. rewrite U.
    destruct (Nat.ltb_spec (String.length uo) 2); [lia | reflexivity].
  - intros [U | (uo & U & L)]; rewrite U; [reflexivity|].
    destruct (Nat.ltb_spec (String.length uo) 2); [reflexivity | lia].
Qed.

Lemma unmount_command_omits_mode_witness :
  exists r h',
    run_module (sample_params "unmounted" None (Some "FORCE") (Some EmptyString))
               (sample_host false EmptyString df_mounted) = Done r h'
    /\ cmd r = "tsocmd UNMOUNT FILESYSTEM\(\'USER.DATA.ZFS\'\)"
    /\ contains "FORCE" (cmd r) = false.
Proof.
  pose (a := sample_params "unmounted" None (Some "FORCE") (Some EmptyString)).
  pose (h := sample_host false EmptyString df_mounted).
  destruct (run_module_completes a h eq_refl) as (r & h' & R).
  exists r, h'.
  destruct (unmount_command_omits_mode a h r h' (or_introl eq_refl) R) as [C _].
  specialize (C "FORCE" eq_refl ltac:(simpl; lia)).
  split; [exact R|]. split; [exact C | rewrite C; reflexivity].
Defined.

(** C10.  With [state=remounted] every completed run reports
    [changed = true], whether or not the data set was mounted and
    whether or not check mode is on; and the run completes whenever no
    failure condition holds. *)
Theorem remounted_reports_changed (a : Params) (h : Host) :
  state a = "remounted" ->
  (forall r h', run_module a h = Done r h' -> changed r = true)
  /\ (ready a h = true -> exists r h', run_module a h = Done r h').
Proof.
  intros S. split; [|apply run_module_completes].
  intros r h' R.
  destruct (run_module_done a h r h' R) as [_ C].
  rewrite C. unfold changed_of, gonna_mount, gonna_unmount, in_state.
  rewrite S. cbn [contains startswith Ascii.eqb Bool.eqb andb orb negb].
  destruct (mounted_in a h), (check_mode h); reflexivity.
Qed.

Lemma remounted_reports_changed_witness :
  (exists r h',
      run_module (sample_params "remounted" None (Some "NORMAL") (Some EmptyString))
                 (sample_host true EmptyString df_mounted) = Done r h'
      /\ changed r = true)
  /\ (exists r h',
      run_module (sample_params "remounted" None (Some "NORMAL") (Some EmptyString))
                 (sample_host false EmptyString EmptyString) = Done r h'
      /\ changed r = true).
Proof.
  pose (a := sample_params "remounted" None (Some "NORMAL") (Some EmptyString)).
  split.
  - destruct (remounted_reports_changed a (sample_host true EmptyString df_mounted)
                eq_refl) as [A B].
    destruct (B eq_refl) as (r & h' & R).
    exists r, h'. split; [exact R | exact (A r h' R)].
  - destruct (remounted_reports_changed a (sample_host false EmptyString EmptyString)
                eq_refl) as [A B].
    destruct (B eq_refl) as (r & h' & R).
    exists r, h'. split; [exact R | exact (A r h' R)].
Defined.

(* ===================================================================== *)
(** ** Properties of [swap_text] and of the persistent store *)
(* ===================================================================== *)

(** C4.  When the header of the matched entry starts on the first line of
    the member, the backward walk stops short of index 0: the span to
    delete is [2..10], and the marker line and the comment card above the
    mount command stay in the member.  With one more line on top of the
    same entry the span is [1..11] and takes the header with it. *)
Theorem header_on_first_line_is_kept :
  entry_only =
    splitlines (snd (assemble (sample_params "mounted" (Some sample_persistent)
                                 (Some "NORMAL") (Some EmptyString))
                              (Some "ZFS") "20200101-000000"))
  /\ ms_match "USER.DATA.ZFS" (nth 2 entry_only EmptyString) = true
  /\ spans "USER.DATA.ZFS" entry_only = [(2, 10)]
  /\ swap_text_lines entry_only EmptyString "USER.DATA.ZFS" =
       ["/* BEGIN ANSIBLE MANAGED BLOCK 20200101-000000 */";
        "/* C01:For Tape2 project */"]
  /\ spans "USER.DATA.ZFS" ("/* other */" :: entry_only) = [(1, 11)]
  /\ swap_text_lines ("/* other */" :: entry_only) EmptyString "USER.DATA.ZFS" =
       ["/* other */"].
Proof.
  repeat split; vm_compute; reflexivity.
Qed.

(** C5.  The string returned by [swap_text] never equals a list of lines,
    neither the list passed in nor that list as [swap_text] leaves it, so
    the test [newtext != content] holds; and every completed run that
    persists (with [write_persistent] set and check mode off) copies the
    rejoined text back into the parmlib member, whether or not an entry
    was removed or added. *)
Theorem store_always_rewritten :
  (forall original adding removing,
      py_ne (PyStr (swap_text original adding removing)) (PyList original) = true
      /\ py_ne (PyStr (swap_text original adding removing))
               (PyList (swap_text_lines original adding removing)) = true)
  /\ (forall a h r h',
         run_module a h = Done r h' ->
         write_persistent a = true ->
         check_mode h = false ->
         exists p text,
           persistent a = Some p
           /\ catalog h (upper (data_set_name p)) = Some text
           /\ catalog h' (upper (data_set_name p)) =
                Some (swap_text (splitlines text)
                        (snd (assemble a (fs_type_upper a) (today h))) (src a))
           /\ last (commands h') EmptyString =
                "cp " ++ tmp_file_filename h' ++ " " ++ dq ++ "//'"
                  ++ upper (data_set_name p) ++ "'" ++ dq).
Proof.
  split.
  - intros original adding removing. split; reflexivity.
  - exact run_module_store.
Qed.

(** A run with [state=absent] on a member without an entry for the data
    set: the member is written back with the text it had. *)
Lemma store_always_rewritten_witness :
  exists r h',
    run_module (sample_params "absent" (Some sample_persistent)
                  (Some "NORMAL") (Some EmptyString))
               (sample_host false "/* other */" EmptyString) = Done r h'
    /\ catalog h' "SYS1.PARMLIB(BPXPRMAA)" = Some "/* other */"
    /\ last (commands h') EmptyString =
         "cp " ++ tmp_file_filename h' ++ " " ++ dq
           ++ "//'SYS1.PARMLIB(BPXPRMAA)'" ++ dq.
Proof.
  pose (a := sample_params "absent" (Some sample_persistent)
               (Some "NORMAL") (Some EmptyString)).
  pose (h := sample_host false "/* other */" EmptyString).
  destruct (run_module_completes a h eq_refl) as (r & h' & R).
  exists r, h'. split; [exact R|].
  destruct store_always_rewritten as [_ W].
  destruct (W a h r h' R eq_refl eq_refl) as (p & text & P & T & S1 & S2).
  inversion P; subst p. vm_compute in T. inversion T; subst text.
  split; [exact S1 | exact S2].
Defined.

(** C1.  The test that sets [write_persistent] looks for the word
    [mounted] inside the state, and both [unmounted] and [remounted]
    contain it.  So with either state, a [persistent] dictionary naming a
    data set, and check mode off, [write_persistent] is set and every
    completed run copies the text returned by [swap_text] back into the
    parmlib member. *)
Theorem unmounted_and_remounted_rewrite_store (a : Params) (h : Host)
  (r : Result) (h' : Host) (p : Persistent) :
  state a = "unmounted" \/ state a = "remounted" ->
  persistent a = Some p ->
  data_set_name p <> EmptyString ->
  check_mode h = false ->
  run_module a h = Done r h' ->
  write_persistent a = true
  /\ exists text,
       catalog h (upper (data_set_name p)) = Some text
       /\ catalog h' (upper (data_set_name p)) =
            Some (swap_text (splitlines text)
                    (snd (assemble a (fs_type_upper a) (today h))) (src a))
       /\ last (commands h') EmptyString =
            "cp " ++ tmp_file_filename h' ++ " " ++ dq ++ "//'"
              ++ upper (data_set_name p) ++ "'" ++ dq.
Proof.
  intros S P N K R.
  assert (W : write_persistent a = true).
  { unfold write_persistent, in_state. rewrite P, upper_length.
    assert (L : (0 <? String.length (data_set_name p))%nat = true)
      by (destruct (data_set_name p); [congruence | reflexivity]).
    rewrite L. destruct S as [-> | ->]; reflexivity. }
  split; [exact W|].
  destruct (run_module_store a h r h' R W K) as (p' & text & P' & T & S1 & S2).
  rewrite P in P'. inversion P'; subst p'.
  exists text. auto.
Qed.

(** With [state=unmounted] the entry of the data set is deleted from the
    member; with [state=remounted] an entry is appended to it. *)
Lemma unmounted_and_remounted_rewrite_store_witness :
  (exists r h',
      run_module (sample_params "unmounted" (Some sample_persistent)
                    (Some "NORMAL") (Some EmptyString))
                 (sample_host false member_with_entry df_mounted) = Done r h'
      /\ catalog h' "SYS1.PARMLIB(BPXPRMAA)" = Some "/* other */")
  /\ (exists r h',
      run_module (sample_params "remounted" (Some sample_persistent)
                    (Some "NORMAL") (Some EmptyString))
                 (sample_host false "/* other */" df_mounted) = Done r h'
      /\ catalog h' "SYS1.PARMLIB(BPXPRMAA)" =
           Some ("/* other */" ++ nl ++ join nl entry_only ++ nl)).
Proof.
  split.
  - pose (a := sample_params "unmounted" (Some sample_persistent)
                 (Some "NORMAL") (Some EmptyString)).
    pose (h := sample_host false member_with_entry df_mounted).
    destruct (run_module_completes a h eq_refl) as (r & h' & R).
    exists r, h'. split; [exact R|].
    destruct (unmounted_and_remounted_rewrite_store a h r h' sample_persistent
                (or_introl eq_refl) eq_refl
                ltac:(discriminate) eq_refl R)
      as (_ & text & T & S1 & _).
    vm_compute in T. inversion T; subst text. exact S1.
  - pose (a := sample_params "remounted" (Some sample_persistent)
                 (Some "NORMAL") (Some EmptyString)).
    pose (h := sample_host false "/* other */" df_mounted).
    destruct (run_module_completes a h eq_refl) as (r & h' & R).
    exists r, h'. split; [exact R|].
    destruct (unmounted_and_remounted_rewrite_store a h r h' sample_persistent
                (or_intror eq_refl) eq_refl
                ltac:(discriminate) eq_refl R)
      as (_ & text & T & S1 & _).
    vm_compute in T. inversion T; subst text. exact S1.
Defined.

(* ===================================================================== *)
(** ** Lemmas on the scan of [swap_text] *)
(* ===================================================================== *)

Lemma scan_from_app (removing : string) (content_lines l1 l2 : list string)
  (i : nat) (st : scan) :
  scan_from removing content_lines i (l1 ++ l2)%list st =
  scan_from removing content_lines (i + List.length l1) l2
    (scan_from removing content_lines i l1 st).
Proof.
  revert i st. induction l1 as [|x l1 IH]; intros i st.
  - cbn. now rewrite Nat.add_0_r.
  - unfold scan_from in *. cbn. rewrite IH.
    now replace (S i + List.length l1) with (i + S (List.length l1)) by lia.
Qed.

Lemma scan_from_cons (removing : string) (content_lines l : list string)
  (x : string) (i : nat) (st : scan) :
  scan_from removing content_lines i (x :: l) st =
  scan_from removing content_lines (S i) l
    (scan_step removing content_lines st (i, x)).
Proof. reflexivity. Qed.

(** Outside an entry, lines that do not match leave the state alone. *)
Lemma scan_from_seeking (removing : string) (content_lines l : list string)
  (i : nat) (st : scan) :
  remove_starting_at_index st = None ->
  Forall (fun line => ms_match removing line = false) l ->
  scan_from removing content_lines i l st = st.
Proof.
  intros S F. revert i. induction F as [|x l Hx F IH]; intros i.
  - reflexivity.
  - rewrite scan_from_cons.
    replace (scan_step removing content_lines st (i, x)) with st; [apply IH|].
    unfold scan_step. now rewrite S, Hx.
Qed.

(** Inside an entry, lines that do not end it only move its last index. *)
Lemma scan_from_inside (removing : string) (content_lines l : list string)
  (i start : nat) (e : option nat) (b : list (nat * nat)) :
  Forall (fun line => ends_block line = false) l ->
  scan_from removing content_lines i l
    {| remove_starting_at_index := Some start;
       remove_ending_at_index := e; boneyard := b |} =
  {| remove_starting_at_index := Some start;
     remove_ending_at_index :=
       match l with [] => e | _ => Some (i + List.length l - 1) end;
     boneyard := b |}.
Proof.
  intros F. revert i e. induction F as [|x l Hx F IH]; intros i e.
  - reflexivity.
  - rewrite scan_from_cons. unfold scan_step at 1. cbn [remove_starting_at_index boneyard].
    rewrite Hx, IH. f_equal.
    destruct l; cbn [List.length]; f_equal; lia.
Qed.

Lemma spans_scan (removing : string) (content_lines : list string) :
  spans removing content_lines =
  let st := scan_from removing content_lines 0 content_lines scan_start in
  match remove_starting_at_index st, remove_ending_at_index st with
  | Some s, Some e =>
      if (s =? e)%nat then boneyard st else dict_set (boneyard st) s e
  | _, _ => boneyard st
  end.
Proof. reflexivity. Qed.

Lemma nth_after (pre rest : list string) (k : nat) :
  nth (List.length pre + k) (pre ++ rest)%list EmptyString =
  nth k rest EmptyString.
Proof.
  rewrite app_nth2 by lia. f_equal. lia.
Qed.

(** The state of the scan just after the matched line of an entry whose
    first line, at index one or later, stops the backward walk. *)
Lemma scan_to_match (removing : string) (pre cards rest : list string)
  (marker mline : string) :
  pre <> [] ->
  Forall (fun line => ms_match removing line = false) pre ->
  ms_match removing marker = false ->
  stops_walk marker = true ->
  Forall (fun line => ms_match removing line = false
                      /\ stops_walk line = false) cards ->
  ms_match removing mline = true ->
  let content_lines := (pre ++ marker :: cards ++ mline :: rest)%list in
  scan_from removing content_lines 0 (pre ++ marker :: cards ++ [mline])%list
            scan_start =
  {| remove_starting_at_index := Some (List.length pre);
     remove_ending_at_index :=
       Some (List.length pre + 1 + List.length cards);
     boneyard := [] |}.
Proof.
  intros Hpre Fpre Hm Hs Fc Hl content_lines.
  assert (Fc1 : Forall (fun line => ms_match removing line = false) cards)
    by (eapply Forall_impl; [|exact Fc]; intros x H; apply H).
  rewrite scan_from_app, (scan_from_seeking _ _ pre) by (auto; reflexivity).
  rewrite scan_from_cons.
  replace (scan_step removing content_lines scan_start (0 + List.length pre, marker))
    with scan_start by (unfold scan_step; cbn; now rewrite Hm).
  rewrite scan_from_app, (scan_from_seeking _ _ cards) by (auto; reflexivity).
  cbn [scan_from List.length seq combine fold_left].
  unfold scan_step. cbn [remove_starting_at_index scan_start boneyard].
  rewrite Hl.
  set (index := S (0 + List.length pre) + List.length cards).
  assert (Hpos : (0 <? index)%nat = true) by (apply Nat.ltb_lt; subst index; lia).
  rewrite Hpos.
  rewrite (walk_back_reaches_marker content_lines index (List.length pre)).
  - subst index. f_equal. f_equal. lia.
  - subst index. destruct pre; [congruence|]. cbn [List.length]. lia.
  - subst content_lines.
    replace (List.length pre) with (List.length pre + 0) at 1 by lia.
    rewrite nth_after. exact Hs.
  - intros k Hk. subst content_lines index.
    replace k with (List.length pre + S (k - List.length pre - 1)) by lia.
    rewrite nth_after. cbn [nth].
    rewrite app_nth1 by lia.
    rewrite Forall_forall in Fc. apply Fc, nth_In. lia.
Qed.

Lemma entry_shape (pre cards rest : list string) (marker mline : string) :
  (pre ++ marker :: cards ++ mline :: rest)%list =
  ((pre ++ marker :: cards ++ [mline]) ++ rest)%list.
Proof.
  rewrite <- !app_assoc. cbn [app]. rewrite <- app_assoc. reflexivity.
Qed.

Lemma del_slice_middle (pre mid post : list string) :
  mid <> [] ->
  del_slice (List.length pre) (List.length pre + List.length mid - 1)
            (pre ++ mid ++ post)%list = (pre ++ post)%list.
Proof.
  intros H. unfold del_slice.
  assert (L : 0 < List.length mid) by (destruct mid; [congruence | cbn; lia]).
  rewrite firstn_app, Nat.sub_diag, firstn_all. cbn [firstn].
  rewrite app_nil_r. f_equal.
  replace (Nat.max (List.length pre) (List.length pre + List.length mid - 1 + 1))
    with (List.length pre + List.length mid) by lia.
  rewrite skipn_app, skipn_all2 by lia. cbn [app].
  replace (List.length pre + List.length mid - List.length pre)
    with (List.length mid) by lia.
  rewrite skipn_app, skipn_all, Nat.sub_diag. reflexivity.
Qed.

Lemma swap_text_lines_spans (original : list string) (adding removing : string) :
  swap_text_lines original adding removing =
  (fold_left (fun l se => del_slice (fst se) (snd se) l)
             (rev (spans removing original)) original
   ++ added_lines adding)%list.
Proof.
  unfold swap_text_lines, added_lines.
  destruct (0 <? String.length adding)%nat; [reflexivity|].
  now rewrite app_nil_r.
Qed.

Lemma swap_text_without_match_lines (original : list string)
  (adding removing : string) :
  Forall (fun line => ms_match removing line = false) original ->
  swap_text_lines original adding removing =
  (original ++ added_lines adding)%list.
Proof.
  intros F. rewrite swap_text_lines_spans, spans_scan.
  rewrite scan_from_seeking by (auto; reflexivity).
  reflexivity.
Qed.

(* ===================================================================== *)
(** ** Further properties of [swap_text] *)
(* ===================================================================== *)

(** Deleting an entry that does not start on the first line of the member,
    on the list of lines. *)
Lemma swap_text_lines_removes_entry (removing adding : string)
  (pre cards body post : list string) (marker mline endl : string) :
  pre <> [] ->
  Forall (fun line => ms_match removing line = false) pre ->
  ms_match removing marker = false ->
  stops_walk marker = true ->
  Forall (fun line => ms_match removing line = false
                      /\ stops_walk line = false) cards ->
  ms_match removing mline = true ->
  Forall (fun line => ends_block line = false) body ->
  ends_block endl = true ->
  Forall (fun line => ms_match removing line = false) post ->
  swap_text_lines
    (pre ++ marker :: cards ++ mline :: body ++ endl :: post)%list
    adding removing =
  (pre ++ post ++ added_lines adding)%list.
Proof.
  intros Hpre Fpre Hm Hs Fc Hl Fb He Fpost.
  rewrite swap_text_lines_spans, spans_scan.
  set (content := (pre ++ marker :: cards ++ mline :: body ++ endl :: post)%list).
  cbv zeta.
  assert (S : scan_from removing content 0 content scan_start =
              {| remove_starting_at_index := None;
                 remove_ending_at_index := None;
                 boneyard :=
                   [(List.length pre,
                     List.length pre + 1 + List.length cards
                       + 1 + List.length body)] |}).
  { unfold content at 2.
    rewrite entry_shape, scan_from_app.
    pose proof (scan_to_match removing pre cards (body ++ endl :: post)
                  marker mline Hpre Fpre Hm Hs Fc Hl) as M.
    cbv zeta in M. fold content in M. rewrite M.
    rewrite scan_from_app, scan_from_inside by exact Fb.
    rewrite scan_from_cons. unfold scan_step at 1.
    cbn [remove_starting_at_index boneyard dict_set]. rewrite He.
    rewrite scan_from_seeking by (auto; reflexivity).
    rewrite !length_app. cbn [List.length]. rewrite !length_app.
    cbn [List.length]. do 3 f_equal. lia. }
  rewrite S. cbn [remove_starting_at_index boneyard rev app fold_left fst snd].
  rewrite app_assoc. f_equal.
  subst content.
  replace (pre ++ marker :: cards ++ mline :: body ++ endl :: post)%list
    with (pre ++ (marker :: cards ++ mline :: body ++ [endl]) ++ post)%list
    by (cbn [app]; rewrite <- !app_assoc; cbn [app];
        rewrite <- !app_assoc; reflexivity).
  rewrite <- (del_slice_middle pre (marker :: cards ++ mline :: body ++ [endl]) post)
    by discriminate.
  f_equal. cbn [List.length]. rewrite !length_app. cbn [List.length].
  rewrite !length_app. cbn [List.length]. lia.
Qed.

(** X1.  An entry that does not start on the first line of the member is
    deleted whole, and nothing else is.  The entry is: a line that stops
    the backward walk (a BEGIN marker, an empty line, or any line that is
    not a comment), comment lines, the matched mount command, lines that
    continue it, and the first line that ends it (an END marker, an empty
    line or an unindented line).  The lines before and after it, none of
    which matches, are returned unchanged and in order. *)
Theorem swap_text_removes_entry (removing adding : string)
  (pre cards body post : list string) (marker mline endl : string) :
  pre <> [] ->
  Forall (fun line => ms_match removing line = false) pre ->
  ms_match removing marker = false ->
  stops_walk marker = true ->
  Forall (fun line => ms_match removing line = false
                      /\ stops_walk line = false) cards ->
  ms_match removing mline = true ->
  Forall (fun line => ends_block line = false) body ->
  ends_block endl = true ->
  Forall (fun line => ms_match removing line = false) post ->
  swap_text
    (pre ++ marker :: cards ++ mline :: body ++ endl :: post)%list
    adding removing =
  join nl (pre ++ post ++ added_lines adding).
Proof.
  intros. unfold swap_text.
  now rewrite swap_text_lines_removes_entry.
Qed.

Lemma swap_text_removes_entry_witness :
  swap_text ("/* other */" :: entry_only ++ ["/* next */"])%list
            EmptyString "USER.DATA.ZFS" =
  "/* other */" ++ nl ++ "/* next */".
Proof.
  exact (swap_text_removes_entry "USER.DATA.ZFS" EmptyString
           ["/* other */"] ["/* C01:For Tape2 project */"]
           ["      MOUNTPOINT('/u/core')"; "      TYPE('ZFS')";
            "      MODE(RDWR)"; "      SETUID"; "      WAIT";
            "      SECURITY"; "      AUTOMOVE"]
           ["/* next */"]
           "/* BEGIN ANSIBLE MANAGED BLOCK 20200101-000000 */"
           "MOUNT FILESYSTEM('USER.DATA.ZFS')"
           "/* END ANSIBLE MANAGED BLOCK 20200101-000000 */"
           ltac:(discriminate) ltac:(repeat constructor) eq_refl eq_refl
           ltac:(repeat constructor) eq_refl ltac:(repeat constructor)
           eq_refl ltac:(repeat constructor)).
Defined.

(** X2.  An entry that runs to the end of the member without a line that
    ends it is deleted through the last line: with the entry starting at
    index one or later, only the lines before it are returned. *)
Theorem swap_text_removes_open_entry (removing adding : string)
  (pre cards body : list string) (marker mline : string) :
  pre <> [] ->
  Forall (fun line => ms_match removing line = false) pre ->
  ms_match removing marker = false ->
  stops_walk marker = true ->
  Forall (fun line => ms_match removing line = false
                      /\ stops_walk line = false) cards ->
  ms_match removing mline = true ->
  Forall (fun line => ends_block line = false) body ->
  swap_text_lines (pre ++ marker :: cards ++ mline :: body)%list
                  adding removing =
  (pre ++ added_lines adding)%list.
Proof.
  intros Hpre Fpre Hm Hs Fc Hl Fb.
  rewrite swap_text_lines_spans, spans_scan.
  set (content := (pre ++ marker :: cards ++ mline :: body)%list).
  cbv zeta.
  assert (S : scan_from removing content 0 content scan_start =
              {| remove_starting_at_index := Some (List.length pre);
                 remove_ending_at_index :=
                   Some (List.length pre + 1 + List.length cards
                           + List.length body);
                 boneyard := [] |}).
  { unfold content at 2.
    rewrite entry_shape, scan_from_app.
    pose proof (scan_to_match removing pre cards body
                  marker mline Hpre Fpre Hm Hs Fc Hl) as M.
    cbv zeta in M. fold content in M. rewrite M.
    rewrite scan_from_inside by exact Fb.
    rewrite !length_app. cbn [List.length]. rewrite !length_app.
    cbn [List.length].
    destruct body; cbn [List.length]; do 2 f_equal; lia. }
  rewrite S. cbn [remove_starting_at_index remove_ending_at_index boneyard].
  destruct (Nat.eqb_spec (List.length pre)
              (List.length pre + 1 + List.length cards + List.length body));
    [lia|].
  cbn [dict_set rev app fold_left fst snd]. f_equal.
  subst content.
  pose proof (del_slice_middle pre (marker :: cards ++ mline :: body) []
                ltac:(discriminate)) as D.
  rewrite !app_nil_r in D.
  replace (List.length pre + 1 + List.length cards + List.length body)
    with (List.length pre
          + List.length (marker :: cards ++ mline :: body) - 1)
    by (cbn [List.length]; rewrite length_app; cbn [List.length]; lia).
  exact D.
Qed.

Lemma swap_text_removes_open_entry_witness :
  swap_text_lines ["/* other */"; ""; "MOUNT FILESYSTEM('USER.DATA.ZFS')";
                   "      MOUNTPOINT('/u/core')"]
                  EmptyString "USER.DATA.ZFS" =
  ["/* other */"].
Proof.
  exact (swap_text_removes_open_entry "USER.DATA.ZFS" EmptyString
           ["/* other */"] [] ["      MOUNTPOINT('/u/core')"]
           EmptyString "MOUNT FILESYSTEM('USER.DATA.ZFS')"
           ltac:(discriminate) ltac:(repeat constructor) eq_refl eq_refl
           ltac:(repeat constructor) eq_refl ltac:(repeat constructor)).
Defined.

(** X3.  A matched mount command on the last line of the member is not
    deleted when every line above it, from index one on, is a plain
    comment line (or when it is the only line): the span then starts and
    ends on the matched line, and a span of one line found at the end of
    the scan is not recorded. *)
Theorem swap_text_keeps_final_match (removing adding : string)
  (top : list string) (mline : string) :
  Forall (fun line => ms_match removing line = false) top ->
  Forall (fun line => stops_walk line = false) (tl top) ->
  ms_match removing mline = true ->
  swap_text_lines (top ++ [mline])%list adding removing =
  (top ++ [mline] ++ added_lines adding)%list.
Proof.
  intros Ft Fs Hl.
  rewrite swap_text_lines_spans, spans_scan.
  set (content := (top ++ [mline])%list). cbv zeta.
  assert (S : scan_from removing content 0 content scan_start =
              {| remove_starting_at_index := Some (List.length top);
                 remove_ending_at_index := Some (List.length top);
                 boneyard := [] |}).
  { unfold content at 2.
    rewrite scan_from_app, (scan_from_seeking _ _ top) by (auto; reflexivity).
    cbn [scan_from List.length seq combine fold_left].
    unfold scan_step. cbn [remove_starting_at_index scan_start boneyard].
    rewrite Hl. cbn [Nat.add].
    rewrite walk_back_never_reaches_top.
    - destruct (0 <? List.length top)%nat; reflexivity.
    - intros k Hk. subst content. rewrite app_nth1 by lia.
      destruct top as [|x top]; [cbn in Hk; lia|].
      cbn [tl] in Fs. rewrite Forall_forall in Fs.
      destruct k; [lia|]. cbn [nth]. apply Fs, nth_In. cbn in Hk. lia. }
  rewrite S. cbn [remove_starting_at_index remove_ending_at_index boneyard].
  rewrite Nat.eqb_refl. cbn [rev fold_left].
  subst content. now rewrite <- app_assoc.
Qed.

Lemma swap_text_keeps_final_match_witness :
  swap_text_lines ["/* BEGIN ANSIBLE MANAGED BLOCK 20200101-000000 */";
                   "/* C01:For Tape2 project */";
                   "MOUNT FILESYSTEM('USER.DATA.ZFS')"]
                  EmptyString "USER.DATA.ZFS" =
  ["/* BEGIN ANSIBLE MANAGED BLOCK 20200101-000000 */";
   "/* C01:For Tape2 project */";
   "MOUNT FILESYSTEM('USER.DATA.ZFS')"].
Proof.
  exact (swap_text_keeps_final_match "USER.DATA.ZFS" EmptyString
           ["/* BEGIN ANSIBLE MANAGED BLOCK 20200101-000000 */";
            "/* C01:For Tape2 project */"]
           "MOUNT FILESYSTEM('USER.DATA.ZFS')"
           ltac:(repeat constructor) ltac:(repeat constructor) eq_refl).
Defined.

(* ===================================================================== *)
(** ** Splitting and joining lines *)
(* ===================================================================== *)

Lemma split_nl_aux_cons (cur s : string) :
  exists x rest, split_nl_aux cur s = x :: rest.
Proof.
  revert cur. induction s as [|c s IH]; intros cur; cbn.
  - eauto.
  - destruct (Ascii.eqb c nl_char); [eauto | apply IH].
Qed.

Lemma join_cons (sep x : string) (l : list string) :
  l <> [] -> join sep (x :: l) = x ++ sep ++ join sep l.
Proof. destruct l; [congruence | reflexivity]. Qed.

Lemma join_split_nl_aux (cur s : string) :
  join nl (split_nl_aux cur s) = cur ++ s.
Proof.
  revert cur. induction s as [|c s IH]; intros cur; cbn [split_nl_aux].
  - cbn. now rewrite append_nil_r.
  - destruct (Ascii.eqb_spec c nl_char) as [->|N].
    + destruct (split_nl_aux_cons EmptyString s) as (x & rest & E).
      rewrite join_cons by (rewrite E; discriminate).
      rewrite IH. reflexivity.
    + rewrite IH, append_assoc. reflexivity.
Qed.

(** Splitting a text at its newlines and joining the pieces with newlines
    gives the text back. *)
Lemma join_split_nl (s : string) : join nl (split_nl s) = s.
Proof. apply join_split_nl_aux. Qed.

Lemma join_app (sep : string) (l1 l2 : list string) :
  l1 <> [] -> l2 <> [] ->
  join sep (l1 ++ l2) = join sep l1 ++ sep ++ join sep l2.
Proof.
  intros H1 H2. induction l1 as [|x l1 IH]; [congruence|].
  destruct l1 as [|y l1].
  - cbn [app]. now rewrite join_cons.
  - change ((x :: y :: l1) ++ l2)%list with (x :: ((y :: l1) ++ l2))%list.
    rewrite join_cons by discriminate.
    rewrite IH by discriminate.
    rewrite (join_cons sep x (y :: l1)) by discriminate.
    now rewrite !append_assoc.
Qed.

(** X4.  When no line of the member matches, the text [swap_text]
    returns is the member's lines joined by newlines, followed on a new
    line by the new text exactly as given; an empty member gives the new
    text alone, and an empty new text adds nothing. *)
Theorem swap_text_appends_verbatim (original : list string)
  (adding removing : string) :
  Forall (fun line => ms_match removing line = false) original ->
  swap_text original adding removing =
  match original with
  | [] => adding
  | _ => if (0 <? String.length adding)%nat
         then join nl original ++ nl ++ adding
         else join nl original
  end.
Proof.
  intros F. unfold swap_text.
  rewrite (swap_text_without_match_lines original adding removing F).
  unfold added_lines.
  destruct (0 <? String.length adding)%nat eqn:A.
  - destruct (split_nl_aux_cons EmptyString adding) as (x & rest & E).
    destruct original as [|y original].
    + cbn [app]. apply join_split_nl.
    + rewrite join_app by (try discriminate; unfold split_nl; rewrite E; discriminate).
      now rewrite join_split_nl.
  - rewrite app_nil_r. destruct original; [|reflexivity].
    destruct adding; [reflexivity | discriminate].
Qed.

Lemma swap_text_appends_verbatim_witness :
  swap_text ["/* other */"; "MOUNT FILESYSTEM('OTHER.ZFS')"]
            ("NEW" ++ nl ++ "ENTRY" ++ nl) "USER.DATA.ZFS" =
  "/* other */" ++ nl ++ "MOUNT FILESYSTEM('OTHER.ZFS')" ++ nl
    ++ "NEW" ++ nl ++ "ENTRY" ++ nl.
Proof.
  exact (swap_text_appends_verbatim
           ["/* other */"; "MOUNT FILESYSTEM('OTHER.ZFS')"]
           ("NEW" ++ nl ++ "ENTRY" ++ nl) "USER.DATA.ZFS"
           ltac:(repeat constructor)).
Defined.

Lemma splitlines_aux_line (x cur s : string) :
  one_line x = true ->
  splitlines_aux cur (x ++ s) = splitlines_aux (cur ++ x) s.
Proof.
  revert cur. induction x as [|c x IH]; intros cur H.
  - now rewrite append_nil_r.
  - cbn [one_line] in H. apply andb_true_iff in H. destruct H as [Hc Hx].
    apply negb_true_iff in Hc.
    cbn [append splitlines_aux]. rewrite Hc, IH by exact Hx.
    now rewrite append_assoc.
Qed.

Lemma splitlines_aux_nl (cur rest : string) :
  splitlines_aux cur (String nl_char rest) =
  match rest with
  | EmptyString => [cur]
  | _ => cur :: splitlines_aux EmptyString rest
  end.
Proof. destruct rest; reflexivity. Qed.

Lemma join_two_nonempty (x y : string) (l : list string) :
  join nl (x :: y :: l) <> EmptyString.
Proof.
  rewrite join_cons by discriminate. intros E.
  apply (f_equal String.length) in E.
  rewrite !append_length in E. cbn in E. lia.
Qed.

(** Lines without line-break characters that are joined by newlines are
    read back by [splitlines] as they were, except that one empty line
    at the very end is dropped. *)
Lemma splitlines_join (lines : list string) (final : string) :
  Forall (fun line => one_line line = true) lines ->
  one_line final = true ->
  splitlines (join nl (lines ++ [final])) =
  match final with
  | EmptyString => lines
  | _ => (lines ++ [final])%list
  end.
Proof.
  intros F Hf. unfold splitlines.
  induction F as [|y l Hy F IH].
  - cbn [app join].
    rewrite <- (append_nil_r final) at 1.
    rewrite splitlines_aux_line by exact Hf. cbn [append splitlines_aux].
    destruct final; reflexivity.
  - change ((y :: l) ++ [final])%list with (y :: (l ++ [final]))%list.
    rewrite join_cons by (destruct l; discriminate).
    rewrite splitlines_aux_line by exact Hy.
    cbn [append]. change (nl ++ ?j) with (String nl_char j).
    rewrite splitlines_aux_nl.
    destruct (join nl (l ++ [final])) eqn:J.
    + destruct l as [|z l].
      * cbn in J. subst final. reflexivity.
      * exfalso. destruct l; cbn [app] in J;
          exact (join_two_nonempty _ _ _ J).
    + rewrite IH. destruct final; reflexivity.
Qed.

(** X5.  The text [swap_text] returns is read back by [splitlines] as
    the lines [swap_text] left in the list, provided none of them holds
    a line-break character; only an empty last line is dropped. *)
Theorem written_text_reads_back (original lines : list string)
  (adding removing final : string) :
  swap_text_lines original adding removing = (lines ++ [final])%list ->
  Forall (fun line => one_line line = true) lines ->
  one_line final = true ->
  splitlines (swap_text original adding removing) =
  match final with
  | EmptyString => lines
  | _ => (lines ++ [final])%list
  end.
Proof.
  intros E F H. unfold swap_text. rewrite E. now apply splitlines_join.
Qed.

Lemma written_text_reads_back_witness :
  splitlines (swap_text ["/* other */"] ("NEW" ++ nl) "USER.DATA.ZFS") =
  ["/* other */"; "NEW"].
Proof.
  exact (written_text_reads_back ["/* other */"] ["/* other */"; "NEW"]
           ("NEW" ++ nl) "USER.DATA.ZFS" EmptyString
           eq_refl ltac:(repeat constructor) eq_refl).
Defined.

(* ===================================================================== *)
(** ** Further properties of the comment formatter *)
(* ===================================================================== *)

Lemma wrap_empty (extra : string) :
  String.length extra = 0 -> wrap extra = [].
Proof.
  intros H. rewrite wrap_equation_1.
  destruct (Nat.eq_dec (String.length extra) 0); [reflexivity | contradiction].
Qed.

Lemma wrap_short (extra : string) :
  0 < String.length extra <= 60 -> wrap extra = [extra].
Proof.
  intros H. rewrite wrap_equation_1.
  destruct (Nat.eq_dec (String.length extra) 0); [lia|]. simpl.
  destruct (le_lt_dec (String.length extra) 60); [reflexivity | lia].
Qed.

Lemma wrap_long (extra : string) :
  60 < String.length extra ->
  wrap extra =
  slice 0 (find_stopper extra) extra
    :: wrap (strip (drop (find_stopper extra) extra)).
Proof.
  intros H. rewrite wrap_equation_1.
  destruct (Nat.eq_dec (String.length extra) 0); [lia|]. simpl.
  destruct (le_lt_dec (String.length extra) 60); [lia | reflexivity].
Qed.

(** Induction on the rounds of the wrapping loop. *)
Lemma wrap_ind (P : string -> Prop) :
  (forall extra, String.length extra = 0 -> P extra) ->
  (forall extra, 0 < String.length extra <= 60 -> P extra) ->
  (forall extra, 60 < String.length extra ->
                 P (strip (drop (find_stopper extra) extra)) -> P extra) ->
  forall extra, P extra.
Proof.
  intros H0 H1 H2.
  assert (A : forall n extra, String.length extra <= n -> P extra).
  { induction n as [|n IH]; intros extra Hn.
    - apply H0. lia.
    - destruct (Nat.eq_dec (String.length extra) 0); [now apply H0|].
      destruct (le_lt_dec (String.length extra) 60); [apply H1; lia|].
      apply H2; [assumption|]. apply IH.
      pose proof (find_stopper_bounds extra).
      pose proof (strip_length (drop (find_stopper extra) extra)) as S.
      rewrite drop_length in S. lia. }
  intros extra. now apply (A (String.length extra)).
Qed.

Lemma number_cons (ctr : nat) (t : string) (texts : list string) :
  number ctr (t :: texts) = card ctr t :: number (S ctr) texts.
Proof. reflexivity. Qed.

Lemma number_length (ctr : nat) (texts : list string) :
  List.length (number ctr texts) = List.length texts.
Proof.
  unfold number. now rewrite length_map, length_combine, length_seq, Nat.min_id.
Qed.

Lemma number_app (ctr : nat) (t1 t2 : list string) :
  number ctr (t1 ++ t2) =
  (number ctr t1 ++ number (ctr + List.length t1) t2)%list.
Proof.
  revert ctr. induction t1 as [|t t1 IH]; intros ctr.
  - cbn [app List.length]. now rewrite Nat.add_0_r.
  - cbn [app List.length]. rewrite !number_cons, IH. cbn [app].
    now replace (S ctr + List.length t1) with (ctr + S (List.length t1)) by lia.
Qed.

Lemma cards_of_number (extra : string) :
  forall ctr, cards_of extra ctr = number ctr (wrap extra).
Proof.
  induction extra using wrap_ind; intros ctr.
  - now rewrite cards_of_empty, wrap_empty.
  - now rewrite cards_of_short, wrap_short.
  - rewrite cards_of_long, wrap_long, number_cons by assumption.
    now rewrite IHextra.
Qed.

Lemma cards_of_list_number (tablines : list string) (ctr : nat) :
  cards_of_list tablines ctr = number ctr (texts_of tablines).
Proof.
  revert ctr. induction tablines as [|s l IH]; intros ctr.
  - reflexivity.
  - cbn [cards_of_list texts_of flat_map].
    rewrite number_app, IH, cards_of_number, number_length. reflexivity.
Qed.

Lemma wrap_bounds (extra : string) :
  Forall (fun t => 1 <= String.length t <= 60) (wrap extra).
Proof.
  induction extra using wrap_ind.
  - rewrite wrap_empty by assumption. constructor.
  - rewrite wrap_short by lia. constructor; [lia | constructor].
  - rewrite wrap_long by assumption. constructor; [|assumption].
    rewrite slice_0_length. pose proof (find_stopper_bounds extra). lia.
Qed.

(** X6.  For every value of [comments], the header is the marker line
    followed by one card per text of [texts_of]; the cards are numbered
    1, 2, 3, ... in the order written, across the input strings, and
    every card holds between one and sixty characters of text. *)
Theorem cards_numbered_and_bounded (dtstr : string) (c : comments_t) :
  comment_header dtstr (Some c) =
    begin_marker dtstr ++ cards_text (number 1 (texts_of (py_iter c)))
  /\ Forall (fun t => 1 <= String.length t <= 60) (texts_of (py_iter c)).
Proof.
  split.
  - now rewrite comment_header_cards, cards_of_list_number.
  - unfold texts_of. induction (py_iter c) as [|s l IH]; cbn [flat_map].
    + constructor.
    + apply Forall_app. split; [apply wrap_bounds | exact IH].
Qed.













(* ===================================================================== *)
(** ** Lemmas on the stages of [run_module] *)
(* ===================================================================== *)

Lemma unmount_step_host (a : Params) (fullumcmd comment : string)
  (changed cm : bool) (h : Host) :
  exists comment',
    unmount_step a fullumcmd (changed, comment, cm) h =
      (changed || (gonna_unmount a && cm), comment',
       (if gonna_unmount a && cm && negb (check_mode h) then false else cm),
       (if gonna_unmount a && cm && negb (check_mode h)
        then run_command fullumcmd h else h)).
Proof.
  unfold unmount_step.
  destruct (gonna_unmount a), cm, (check_mode h); cbn;
    rewrite ?orb_true_r, ?orb_false_r; eexists; reflexivity.
Qed.

Lemma mount_step_host (a : Params) (fullcmd comment : string)
  (changed cm : bool) (h : Host) :
  exists comment',
    mount_step a fullcmd (changed, comment, cm) h =
      (changed || (gonna_mount a && negb cm), comment', cm,
       (if gonna_mount a && negb cm && negb (check_mode h)
        then run_command fullcmd h else h)).
Proof.
  unfold mount_step.
  destruct (gonna_mount a), cm, (check_mode h); cbn;
    rewrite ?orb_true_r, ?orb_false_r; eexists; reflexivity.
Qed.

Lemma check_mode_prepared (a : Params) (h : Host) :
  check_mode (prepared a h) = check_mode h.
Proof.
  unfold prepared. destruct (gonna_mount a && negb (path_exists h)); reflexivity.
Qed.

Lemma check_mode_run_command (u : string) (h : Host) :
  check_mode (run_command u h) = check_mode h.
Proof. reflexivity. Qed.

Lemma catalog_run_command (u : string) (h : Host) :
  catalog (run_command u h) = catalog h.
Proof. reflexivity. Qed.

Lemma catalog_prepared (a : Params) (h : Host) :
  catalog (prepared a h) = catalog h.
Proof.
  unfold prepared. destruct (gonna_mount a && negb (path_exists h)); reflexivity.
Qed.

Lemma ready_split (a : Params) (h : Host) :
  ready a h =
  ready_to_act a h
  && (negb (write_persistent a && negb (check_mode h))
      || match persistent a with
         | Some p => exists_ds (upper (data_set_name p)) h
         | None => true
         end).
Proof. reflexivity. Qed.

(** What a run does once nothing has failed before the mount and unmount
    steps. *)
Lemma run_module_acts (a : Params) (h : Host) :
  ready_to_act a h = true ->
  exists comment2,
    run_module a h =
    let result c :=
      {| changed := changed_of a (check_mode h) (mounted_in a h);
         comment := c;
         cmd := fullcmd_of a h ++ fullumcmd_of a (fullcmd_of a h) |} in
    if write_persistent a && negb (check_mode h) then
      match persistent a with
      | Some p =>
          match catalog h (upper (data_set_name p)) with
          | None =>
              Failed ("persistent data_set_name member ("
                        ++ upper (data_set_name p) ++ ") doesn't exist")
                     (acted a h)
          | Some text =>
              let '(c, h3) :=
                persist a (upper (data_set_name p)) text (parmtext_of a h)
                        comment2 (acted a h) in
              Done (result c) h3
          end
      | None => Done (result comment2) (acted a h)
      end
    else Done (result comment2) (acted a h).
Proof.
  unfold ready_to_act. rewrite !andb_true_iff.
  intros ((((P & F) & X) & M) & D).
  unfold run_module. fold (fs_type_upper a).
  replace (negb (truthy (path a))
           && (negb (in_state "unmounted" a) && negb (in_state "absent" a)))
    with false
    by (destruct (truthy (path a)), (in_state "unmounted" a),
          (in_state "absent" a); cbn in *; congruence).
  replace (negb (truthy (fs_type a))
           && (negb (in_state "unmounted" a) && negb (in_state "absent" a)))
    with false
    by (destruct (truthy (fs_type a)), (in_state "unmounted" a),
          (in_state "absent" a); cbn in *; congruence).
  rewrite X. cbn [negb].
  set (mounting := if gonna_mount a then _ else _).
  assert (HM : exists c0, mounting =
                 inr (c0, if gonna_mount a && negb (path_exists h)
                          then mkdir h else h)).
  { subst mounting.
    destruct (gonna_mount a); [destruct (path_exists h);
                               [|destruct (mkdir_error h); [discriminate|]]|];
      eexists; reflexivity. }
  destruct HM as (c0 & ->). cbv zeta.
  fold (prepared a h).
  replace (df_rc (prepared a h)) with (df_rc h)
    by (unfold prepared; destruct (gonna_mount a && negb (path_exists h));
        reflexivity).
  rewrite D. cbn [negb].
  replace (mounted_in a (prepared a h)) with (mounted_in a h)
    by (unfold prepared, mounted_in;
        destruct (gonna_mount a && negb (path_exists h)); reflexivity).
  replace (today (prepared a h)) with (today h)
    by (unfold prepared; destruct (gonna_mount a && negb (path_exists h));
        reflexivity).
  unfold fullcmd_of, parmtext_of, acted, still_mounted, fullcmd_of.
  destruct (assemble a (fs_type_upper a) (today h)) as [fullcmd parmtext].
  cbn [fst snd]. fold (fullumcmd_of a fullcmd).
  destruct (unmount_step_host a (fullumcmd_of a fullcmd) c0 false
              (mounted_in a h) (prepared a h)) as (c1 & U).
  rewrite U, check_mode_prepared.
  match goal with
  | |- context [mount_step a fullcmd (?ch, c1, ?cm) ?h1] =>
      destruct (mount_step_host a fullcmd c1 ch cm h1) as (c2 & Mo);
      rewrite Mo
  end.
  exists c2.
  unfold changed_of.
  destruct (gonna_unmount a), (mounted_in a h), (check_mode h) eqn:CM,
    (gonna_mount a);
    repeat (progress (cbn [andb orb negb];
                      rewrite ?check_mode_run_command, ?catalog_run_command,
                        ?check_mode_prepared, ?catalog_prepared, ?CM));
    reflexivity.
Qed.

Lemma commands_prepared (a : Params) (h : Host) :
  commands (prepared a h) = (commands h ++ ["df"])%list.
Proof.
  unfold prepared. destruct (gonna_mount a && negb (path_exists h)); reflexivity.
Qed.

Lemma commands_acted (a : Params) (h : Host) :
  commands (acted a h) = (commands h ++ "df" :: issued a h)%list.
Proof.
  unfold acted, issued.
  destruct (gonna_unmount a && mounted_in a h && negb (check_mode h)),
    (gonna_mount a && negb (still_mounted a h) && negb (check_mode h));
    cbn [commands run_command]; rewrite commands_prepared, <- ?app_assoc;
    reflexivity.
Qed.

Lemma catalog_acted (a : Params) (h : Host) :
  catalog (acted a h) = catalog h.
Proof.
  unfold acted.
  destruct (gonna_unmount a && mounted_in a h && negb (check_mode h)),
    (gonna_mount a && negb (still_mounted a h) && negb (check_mode h));
    rewrite ?catalog_run_command; apply catalog_prepared.
Qed.

Lemma path_exists_acted (a : Params) (h : Host) :
  path_exists (acted a h) = path_exists h || gonna_mount a.
Proof.
  unfold acted, prepared.
  destruct (gonna_unmount a && mounted_in a h && negb (check_mode h)),
    (gonna_mount a && negb (still_mounted a h) && negb (check_mode h)),
    (gonna_mount a), (path_exists h) eqn:E; cbn; rewrite ?E; reflexivity.
Qed.

(** A run that stops before the mount and unmount steps has issued at
    most [df] and has altered no data set. *)
Lemma run_module_fails_early (a : Params) (h : Host) :
  ready_to_act a h = false ->
  exists msg h',
    run_module a h = Failed msg h'
    /\ catalog h' = catalog h
    /\ (commands h' = commands h \/ commands h' = (commands h ++ ["df"])%list).
Proof.
  unfold ready_to_act, run_module, gonna_mount.
  destruct (truthy (path a)), (in_state "unmounted" a) eqn:U,
    (in_state "absent" a) eqn:A, (truthy (fs_type a)), (exists_ds (src a) h);
    cbn [andb orb negb]; try (intros _; eauto 8; fail);
    repeat match goal with
           | |- context [path_exists h] => destruct (path_exists h)
           | |- context [mkdir_error h] => destruct (mkdir_error h)
           end;
    cbn [andb orb negb]; try (intros _; eauto 8; fail);
    cbv zeta; cbn [df_rc run_command mkdir];
    intros D; rewrite D; cbn [negb]; eauto 8.
Qed.

Lemma done_ready_to_act (a : Params) (h : Host) (r : Result) (h' : Host) :
  run_module a h = Done r h' -> ready_to_act a h = true.
Proof.
  intros R. destruct (ready_to_act a h) eqn:E; [reflexivity|].
  destruct (run_module_fails_early a h E) as (msg & h0 & F & _).
  congruence.
Qed.

Lemma persist_catalog (a : Params) (dsn text parmtext comment : string)
  (h : Host) (n : string) :
  catalog (snd (persist a dsn text parmtext comment h)) n =
  if n =? dsn then Some (swap_text (splitlines text) parmtext (src a))
  else match backup_target a with
       | Some b => if n =? b then Some text else catalog h n
       | None => catalog h n
       end.
Proof.
  unfold persist, backup_target. cbn [py_ne].
  destruct (backup_of a) as [[|] [bn|]];
    try destruct (0 <? String.length bn)%nat; reflexivity.
Qed.

Lemma persist_commands (a : Params) (dsn text parmtext comment : string)
  (h : Host) :
  exists copies,
    commands (snd (persist a dsn text parmtext comment h)) =
    (commands h ++ copies)%list
    /\ Forall (fun c => startswith "cp " c = true) copies.
Proof.
  unfold persist. cbn [py_ne].
  destruct (backup_of a) as [[|] [bn|]];
    try destruct (0 <? String.length bn)%nat;
    cbn [snd commands copy_to run_command]; rewrite <- ?app_assoc;
    eexists; (split; [reflexivity|]); repeat constructor.
Qed.

(* ===================================================================== *)
(** ** Further properties of [run_module] *)
(* ===================================================================== *)

(** X9.  The [changed] flag of a completed run tells whether a mount or
    an unmount was due, and nothing else: with [state=mounted] or
    [state=present] it is set exactly when the data set was not mounted,
    with [state=unmounted] or [state=absent] exactly when it was; check
    mode and the rewriting of the parmlib member do not enter into it. *)
Theorem changed_follows_mount_state (a : Params) (h : Host) (r : Result)
  (h' : Host) :
  run_module a h = Done r h' ->
  (state a = "mounted" \/ state a = "present" ->
   changed r = negb (mounted_in a h))
  /\ (state a = "unmounted" \/ state a = "absent" ->
      changed r = mounted_in a h).
Proof.
  intros R. destruct (run_module_done a h r h' R) as [_ C]. rewrite C.
  unfold changed_of, gonna_mount, gonna_unmount, in_state.
  split; intros [S|S]; rewrite S;
    cbn [contains startswith Ascii.eqb Bool.eqb andb orb negb];
    destruct (mounted_in a h), (check_mode h); reflexivity.
Qed.

Lemma changed_follows_mount_state_witness :
  exists r h',
    run_module (sample_params "present" (Some sample_persistent)
                  (Some "NORMAL") (Some EmptyString))
               (sample_host false EmptyString df_mounted) = Done r h'
    /\ changed r = false
    /\ catalog h' "SYS1.PARMLIB(BPXPRMAA)" <> Some EmptyString.
Proof.
  pose (a := sample_params "present" (Some sample_persistent)
               (Some "NORMAL") (Some EmptyString)).
  pose (h := sample_host false EmptyString df_mounted).
  destruct (run_module_completes a h eq_refl) as (r & h' & R).
  exists r, h'. split; [exact R|].
  destruct (changed_follows_mount_state a h r h' R) as [C _].
  split; [exact (C (or_intror eq_refl))|].
  destruct (run_module_store a h r h' R eq_refl eq_refl)
    as (p & text & P & T & S1 & _).
  inversion P; subst p. vm_compute in T. inversion T; subst text.
  intros Hc.
  change (upper (data_set_name sample_persistent))
    with "SYS1.PARMLIB(BPXPRMAA)" in S1.
  rewrite Hc in S1. inversion S1.
Defined.

(** X10.  In check mode a completed run hands only [df] to
    [module.run_command] and leaves every data set as it was; the mount
    point, however, is there afterwards whenever the state asks for a
    mount, because the directory is made before check mode is looked
    at. *)
Theorem check_mode_runs_only_df (a : Params) (h : Host) (r : Result)
  (h' : Host) :
  check_mode h = true ->
  run_module a h = Done r h' ->
  commands h' = (commands h ++ ["df"])%list
  /\ catalog h' = catalog h
  /\ path_exists h' = path_exists h || gonna_mount a.
Proof.
  intros K R.
  destruct (run_module_acts a h (done_ready_to_act a h r h' R)) as (c2 & E).
  rewrite R, K in E. cbn [negb] in E. rewrite andb_false_r in E.
  inversion E; subst.
  rewrite commands_acted, catalog_acted, path_exists_acted.
  unfold issued. rewrite K. cbn [negb]. rewrite !andb_false_r.
  auto.
Qed.

Lemma check_mode_runs_only_df_witness :
  exists r h',
    run_module (sample_params "mounted" (Some sample_persistent)
                  (Some "NORMAL") (Some EmptyString))
               (sample_host true EmptyString EmptyString) = Done r h'
    /\ changed r = true
    /\ commands h' = ["df"].
Proof.
  pose (a := sample_params "mounted" (Some sample_persistent)
               (Some "NORMAL") (Some EmptyString)).
  pose (h := sample_host true EmptyString EmptyString).
  destruct (run_module_completes a h eq_refl) as (r & h' & R).
  exists r, h'. split; [exact R|].
  destruct (check_mode_runs_only_df a h r h' eq_refl R) as (C & _ & _).
  destruct (run_module_done a h r h' R) as [_ Ch].
  split; [exact Ch | exact C].
Defined.

(** X11.  A run completes exactly when no failure condition holds: the
    path and the file-system type are given unless the state is
    [unmounted] or [absent], the source data set exists, the mount point
    exists or can be made when mounting, [df] returns 0, and the
    persistent data set exists when it is to be rewritten. *)
Theorem completes_iff_ready (a : Params) (h : Host) :
  (exists r h', run_module a h = Done r h') <-> ready a h = true.
Proof.
  split; [|apply run_module_completes].
  intros (r & h' & R).
  rewrite ready_split, (done_ready_to_act a h r h' R). cbn [andb].
  destruct (run_module_acts a h (done_ready_to_act a h r h' R)) as (c2 & E).
  rewrite R in E.
  destruct (write_persistent a && negb (check_mode h)); [|reflexivity].
  cbn [negb orb]. destruct (persistent a) as [p|]; [|reflexivity].
  unfold exists_ds.
  destruct (catalog h (upper (data_set_name p))); [reflexivity | discriminate].
Qed.

Lemma backup_target_fields (a : Params) (b : string) :
  backup_target a = Some b ->
  exists p bn,
    persistent a = Some p /\ backup p = true
    /\ backup_name p = Some bn /\ b = upper bn.
Proof.
  unfold backup_target, backup_of.
  destruct (persistent a) as [p|]; [|discriminate].
  destruct (backup p) eqn:B; [|discriminate].
  destruct (backup_name p) as [bn|] eqn:N; cbn [truthy option_map];
    [|discriminate].
  destruct (0 <? String.length bn)%nat; cbn [option_map]; [|discriminate].
  destruct (0 <? String.length (upper bn))%nat; [|discriminate].
  intros E; inversion E; subst. exists p, bn. auto.
Qed.

Lemma backup_target_named (a : Params) (p : Persistent) (bn : string) :
  persistent a = Some p -> backup p = true ->
  backup_name p = Some bn -> bn <> EmptyString ->
  backup_target a = Some (upper bn).
Proof.
  intros P B N E. unfold backup_target, backup_of. rewrite P, B, N.
  cbn [truthy option_map].
  assert (L : (0 <? String.length bn)%nat = true)
    by (destruct bn; [congruence | reflexivity]).
  rewrite L. cbn [option_map]. now rewrite upper_length, L.
Qed.

(** X12.  A failed run alters no data set.  It has issued nothing, or
    [df] alone, or [df] and the mount and unmount commands that were
    due; the last happens only when the persistent data set is found
    missing, which is checked after the commands have run. *)
Theorem failed_run_alters_no_data_set (a : Params) (h : Host)
  (msg : string) (h' : Host) :
  run_module a h = Failed msg h' ->
  catalog h' = catalog h
  /\ (commands h' = commands h
      \/ commands h' = (commands h ++ ["df"])%list
      \/ (commands h' = (commands h ++ "df" :: issued a h)%list
          /\ exists p, persistent a = Some p
               /\ catalog h (upper (data_set_name p)) = None)).
Proof.
  intros R. destruct (ready_to_act a h) eqn:E.
  - destruct (run_module_acts a h E) as (c2 & A). rewrite R in A.
    cbv zeta in A.
    destruct (write_persistent a && negb (check_mode h)); [|discriminate].
    destruct (persistent a) as [p|]; [|discriminate].
    destruct (catalog h (upper (data_set_name p))) eqn:T.
    + destruct (persist a _ _ _ _ _); discriminate.
    + inversion A; subst. rewrite catalog_acted, commands_acted.
      split; [reflexivity|]. right; right. split; [reflexivity|]. eauto.
  - destruct (run_module_fails_early a h E) as (m & h0 & F & C & K).
    rewrite R in F. inversion F; subst. split; [exact C|].
    destruct K as [K|K]; auto.
Qed.

Lemma failed_run_alters_no_data_set_witness :
  exists msg h',
    run_module (sample_params "mounted" (Some sample_persistent_missing)
                  (Some "NORMAL") (Some EmptyString))
               (sample_host false "/* other */" EmptyString) = Failed msg h'
    /\ catalog h' "SYS1.PARMLIB(BPXPRMAA)" = Some "/* other */".
Proof.
  pose (a := sample_params "mounted" (Some sample_persistent_missing)
               (Some "NORMAL") (Some EmptyString)).
  pose (h := sample_host false "/* other */" EmptyString).
  destruct (run_module a h) as [msg h'|r h'] eqn:R;
    [|vm_compute in R; discriminate R].
  exists msg, h'. split; [exact R|].
  destruct (failed_run_alters_no_data_set a h msg h' R) as [C _].
  rewrite C. reflexivity.
Defined.

(** X13.  When the persistent data set does not exist, the run fails
    only after the mount and unmount steps: the commands that were due
    have been handed to [module.run_command] by then. *)
Theorem missing_store_fails_after_acting (a : Params) (h : Host)
  (p : Persistent) :
  ready_to_act a h = true ->
  write_persistent a = true ->
  check_mode h = false ->
  persistent a = Some p ->
  catalog h (upper (data_set_name p)) = None ->
  exists h',
    run_module a h =
      Failed ("persistent data_set_name member ("
                ++ upper (data_set_name p) ++ ") doesn't exist") h'
    /\ commands h' = (commands h ++ "df" :: issued a h)%list.
Proof.
  intros E W K P T.
  destruct (run_module_acts a h E) as (c2 & A).
  rewrite W, K, P, T in A. cbn [negb andb] in A.
  exists (acted a h). split; [exact A | apply commands_acted].
Qed.

Lemma missing_store_fails_after_acting_witness :
  exists h',
    run_module (sample_params "mounted" (Some sample_persistent_missing)
                  (Some "NORMAL") (Some EmptyString))
               (sample_host false "/* other */" EmptyString) =
      Failed "persistent data_set_name member (SYS1.PARMLIB(NOTTHERE)) doesn't exist" h'
    /\ commands h' =
       ["df";
        "tsocmd MOUNT FILESYSTEM\( \'USER.DATA.ZFS\' \) MOUNTPOINT\( \'/u/core\' \) TYPE\( 'ZFS' \) MODE\(RDWR\) SETUID WAIT SECURITY AUTOMOVE"].
Proof.
  exact (missing_store_fails_after_acting
           (sample_params "mounted" (Some sample_persistent_missing)
              (Some "NORMAL") (Some EmptyString))
           (sample_host false "/* other */" EmptyString)
           sample_persistent_missing eq_refl eq_refl eq_refl eq_refl eq_refl).
Defined.

(** X14.  Whatever the outcome, a run alters no data set other than the
    persistent data set and, when a backup is asked for and named, the
    backup data set. *)
Theorem only_store_and_backup_change (a : Params) (h : Host) (n : string) :
  (forall p, persistent a = Some p ->
     n <> upper (data_set_name p)
     /\ (backup p = true ->
         forall bn, backup_name p = Some bn -> n <> upper bn)) ->
  catalog (host_of (run_module a h)) n = catalog h n.
Proof.
  intros H. destruct (ready_to_act a h) eqn:E.
  - destruct (run_module_acts a h E) as (c2 & A). rewrite A. cbv zeta.
    destruct (write_persistent a && negb (check_mode h));
      [|cbn [host_of]; now rewrite catalog_acted].
    destruct (persistent a) as [p|] eqn:P;
      [|cbn [host_of]; now rewrite catalog_acted].
    destruct (catalog h (upper (data_set_name p))) as [text|];
      [|cbn [host_of]; now rewrite catalog_acted].
    destruct (persist a (upper (data_set_name p)) text (parmtext_of a h)
                c2 (acted a h)) as [c h3] eqn:Pe.
    cbn [host_of]. replace h3 with (snd (persist a (upper (data_set_name p))
                                           text (parmtext_of a h) c2 (acted a h)))
      by (now rewrite Pe).
    rewrite persist_catalog, catalog_acted.
    destruct (H p eq_refl) as [N B].
    destruct (String.eqb_spec n (upper (data_set_name p))); [contradiction|].
    destruct (backup_target a) as [b|] eqn:T; [|reflexivity].
    destruct (backup_target_fields a b T) as (p' & bn & P' & Bk & Bn & ->).
    rewrite P in P'. inversion P'; subst p'.
    destruct (String.eqb_spec n (upper bn)); [|reflexivity].
    exfalso. exact (B Bk bn Bn e).
  - destruct (run_module_fails_early a h E) as (m & h0 & F & C & _).
    rewrite F. cbn [host_of]. now rewrite C.
Qed.

Lemma only_store_and_backup_change_witness :
  catalog (host_of (run_module
                      (sample_params "mounted" (Some sample_persistent)
                         (Some "NORMAL") (Some EmptyString))
                      (sample_host false "/* other */" EmptyString)))
          "USER.DATA.ZFS" = Some EmptyString.
Proof.
  rewrite (only_store_and_backup_change
             (sample_params "mounted" (Some sample_persistent)
                (Some "NORMAL") (Some EmptyString))
             (sample_host false "/* other */" EmptyString) "USER.DATA.ZFS").
  - reflexivity.
  - intros p P. inversion P; subst p. split; [discriminate|].
    intros B. discriminate B.
Defined.

(** X15.  When a backup is asked for and named, a completed run that
    rewrites the persistent data set leaves in the backup data set (its
    name upper-cased) the text the persistent data set held before the
    run. *)
Theorem backup_holds_previous_text (a : Params) (h : Host) (r : Result)
  (h' : Host) (p : Persistent) (bn : string) :
  run_module a h = Done r h' ->
  write_persistent a = true ->
  check_mode h = false ->
  persistent a = Some p ->
  backup p = true ->
  backup_name p = Some bn ->
  bn <> EmptyString ->
  upper bn <> upper (data_set_name p) ->
  catalog h' (upper bn) = catalog h (upper (data_set_name p))
  /\ catalog h (upper (data_set_name p)) <> None.
Proof.
  intros R W K P B N E D.
  destruct (run_module_acts a h (done_ready_to_act a h r h' R)) as (c2 & A).
  rewrite R, W, K, P in A. cbn [negb andb] in A. cbv zeta in A.
  destruct (catalog h (upper (data_set_name p))) as [text|]; [|discriminate].
  destruct (persist a (upper (data_set_name p)) text (parmtext_of a h)
              c2 (acted a h)) as [c h3] eqn:Pe.
  inversion A; subst h'. split; [|discriminate].
  replace h3 with (snd (persist a (upper (data_set_name p))
                          text (parmtext_of a h) c2 (acted a h)))
    by (now rewrite Pe).
  rewrite persist_catalog, (backup_target_named a p bn P B N E).
  destruct (String.eqb_spec (upper bn) (upper (data_set_name p)));
    [contradiction|].
  now rewrite String.eqb_refl.
Qed.

Lemma backup_holds_previous_text_witness :
  exists r h',
    run_module (sample_params "mounted" (Some sample_persistent_backup)
                  (Some "NORMAL") (Some EmptyString))
               (sample_host false "/* other */" EmptyString) = Done r h'
    /\ catalog h' "SYS1.PARMLIB(BPXPRMAB)" = Some "/* other */".
Proof.
  pose (a := sample_params "mounted" (Some sample_persistent_backup)
               (Some "NORMAL") (Some EmptyString)).
  pose (h := sample_host false "/* other */" EmptyString).
  destruct (run_module_completes a h eq_refl) as (r & h' & R).
  exists r, h'. split; [exact R|].
  destruct (backup_holds_previous_text a h r h' sample_persistent_backup
              "sys1.parmlib(bpxprmab)" R eq_refl eq_refl eq_refl eq_refl
              eq_refl ltac:(discriminate) ltac:(discriminate)) as [C _].
  exact C.
Defined.

(* ===================================================================== *)
(** ** The entry written and the pattern that looks for it *)
(* ===================================================================== *)










Lemma run_module_commands (a : Params) (h : Host) (r : Result) (h' : Host) :
  run_module a h = Done r h' ->
  exists copies,
    commands h' = (commands h ++ "df" :: issued a h ++ copies)%list
    /\ Forall (fun c => startswith "cp " c = true) copies
    /\ (write_persistent a && negb (check_mode h) = false -> copies = []).
Proof.
  intros R.
  destruct (run_module_acts a h (done_ready_to_act a h r h' R)) as (c2 & A).
  rewrite R in A. cbv zeta in A.
  destruct (write_persistent a && negb (check_mode h)).
  - destruct (persistent a) as [p|].
    + destruct (catalog h (upper (data_set_name p))) as [text|]; [|discriminate].
      destruct (persist a (upper (data_set_name p)) text (parmtext_of a h)
                  c2 (acted a h)) as [c h3] eqn:Pe.
      inversion A; subst h'.
      destruct (persist_commands a (upper (data_set_name p)) text
                  (parmtext_of a h) c2 (acted a h)) as (copies & C & F).
      rewrite Pe in C. cbn [snd] in C.
      exists copies. rewrite C, commands_acted, <- app_assoc. cbn [app].
      repeat split; [exact F | discriminate].
    + inversion A; subst h'. exists []. rewrite commands_acted, app_nil_r.
      repeat split; constructor.
  - inversion A; subst h'. exists []. rewrite commands_acted, app_nil_r.
    repeat split; constructor.
Qed.

(** X18.  The commands of a completed run, after [df] and before any copy
    of the parmlib member, are those the state and the mount state call
    for, and none in check mode: for [mounted] and [present] the mount
    command when the data set is not mounted; for [unmounted] and
    [absent] the unmount command when it is mounted; for [remounted] the
    unmount command when it is mounted, then the mount command. *)
Theorem commands_follow_state (a : Params) (h : Host) (r : Result) (h' : Host) :
  run_module a h = Done r h' ->
  exists copies,
    commands h' = (commands h ++ "df" :: issued a h ++ copies)%list
    /\ Forall (fun c => startswith "cp " c = true) copies
    /\ (write_persistent a = false -> copies = [])
    /\ (check_mode h = true -> issued a h = [] /\ copies = [])
    /\ (check_mode h = false ->
        (state a = "mounted" \/ state a = "present" ->
         issued a h = if mounted_in a h then [] else [fullcmd_of a h])
        /\ (state a = "unmounted" \/ state a = "absent" ->
            issued a h = if mounted_in a h
                         then [fullumcmd_of a (fullcmd_of a h)] else [])
        /\ (state a = "remounted" ->
            issued a h = if mounted_in a h
                         then [fullumcmd_of a (fullcmd_of a h); fullcmd_of a h]
                         else [fullcmd_of a h])).
Proof.
  intros R.
  destruct (run_module_commands a h r h' R) as (copies & C & F & E).
  exists copies. split; [exact C|]. split; [exact F|].
  split; [intros W; apply E; now rewrite W|].
  unfold issued, still_mounted, gonna_mount, gonna_unmount, in_state.
  split.
  - intros K. rewrite K in *. cbn [negb]. rewrite !andb_false_r in *.
    split; [reflexivity | now apply E].
  - intros K. rewrite K. cbn [negb]. rewrite !andb_true_r.
    repeat split; intros S; try destruct S as [S|S]; rewrite S;
      cbn [contains startswith Ascii.eqb Bool.eqb andb orb negb];
      destruct (mounted_in a h); reflexivity.
Qed.

Lemma commands_follow_state_witness :
  exists r h',
    run_module (sample_params "remounted" None (Some "NORMAL") (Some EmptyString))
               (sample_host false EmptyString df_mounted) = Done r h'
    /\ commands h' =
       ["df"; "tsocmd UNMOUNT FILESYSTEM\(\'USER.DATA.ZFS\'\)";
        "tsocmd MOUNT FILESYSTEM\( \'USER.DATA.ZFS\' \) MOUNTPOINT\( \'/u/core\' \) TYPE\( 'ZFS' \) MODE\(RDWR\) SETUID WAIT SECURITY AUTOMOVE"].
Proof.
  pose (a := sample_params "remounted" None (Some "NORMAL") (Some EmptyString)).
  pose (h := sample_host false EmptyString df_mounted).
  destruct (run_module_completes a h eq_refl) as (r & h' & R).
  exists r, h'. split; [exact R|].
  destruct (commands_follow_state a h r h' R) as (copies & C & _ & W & _ & K).
  destruct (K eq_refl) as (_ & _ & I).
  rewrite (W eq_refl), (I eq_refl), app_nil_r in C. exact C.
Defined.

(* ===================================================================== *)
(** ** The entry as lines, and rewriting it *)
(* ===================================================================== *)

Lemma cards_text_join (l : list string) :
  cards_text l = join nl (l ++ [EmptyString]).
Proof.
  induction l as [|x l IH]; [reflexivity|].
  cbn [cards_text fold_right app]. fold (cards_text l).
  rewrite join_cons by (destruct l; discriminate).
  now rewrite IH.
Qed.

Lemma replace_begin_end_plain (dtstr rest : string) :
  all_chars (fun c => negb (Ascii.eqb c "B")) dtstr = true ->
  replace_begin_end 0 (dtstr ++ rest) = dtstr ++ replace_begin_end 0 rest.
Proof.
  induction dtstr as [|c d IH]; intros H; [reflexivity|].
  cbn [all_chars] in H. apply andb_true_iff in H. destruct H as [Hc Hd].
  apply negb_true_iff in Hc.
  cbn [append replace_begin_end startswith].
  rewrite Ascii.eqb_sym, Hc. cbn [andb]. now rewrite IH.
Qed.

(** The closing marker is the opening marker with [BEGIN] turned into
    [END], for a time stamp without a capital B. *)
Lemma parmtail_end_line (dtstr : string) :
  all_chars (fun c => negb (Ascii.eqb c "B")) dtstr = true ->
  parmtail_of (begin_marker dtstr) = nl ++ end_line dtstr ++ nl.
Proof.
  intros H. unfold parmtail_of, replace_BEGIN_END, begin_marker, end_line.
  f_equal.
  assert (P : forall x,
             replace_begin_end 0 ("/* BEGIN ANSIBLE MANAGED BLOCK " ++ x) =
             "/* END ANSIBLE MANAGED BLOCK " ++ replace_begin_end 0 x)
    by reflexivity.
  rewrite P, (replace_begin_end_plain dtstr _ H), !append_assoc.
  reflexivity.
Qed.

Lemma cards_text_nonempty (l : list string) :
  l <> [] -> cards_text l = join nl l ++ nl.
Proof.
  intros H. rewrite cards_text_join, join_app by (auto; discriminate).
  reflexivity.
Qed.

Lemma comment_header_lines (dtstr : string) (c : option comments_t) :
  comment_header dtstr c = cards_text (begin_line dtstr :: header_cards c).
Proof.
  destruct c as [c|].
  - rewrite comment_header_cards. unfold begin_marker, begin_line.
    cbn [header_cards cards_text fold_right].
    fold (cards_text (cards_of_list (py_iter c) 1)).
    now rewrite !append_assoc.
  - unfold comment_header, begin_marker, begin_line.
    cbn [header_cards cards_text fold_right].
    now rewrite !append_assoc.
Qed.

Lemma body_render_join (l : list string) (fs : list facet) :
  l <> [] ->
  join nl l ++ body_render fs = join nl (l ++ map body_line fs).
Proof.
  revert l. induction fs as [|f fs IH]; intros l H.
  - cbn. now rewrite append_nil_r, app_nil_r.
  - cbn [body_render fold_right map]. fold (body_render fs).
    replace (l ++ body_line f :: map body_line fs)%list
      with ((l ++ [body_line f]) ++ map body_line fs)%list
      by (now rewrite <- app_assoc).
    rewrite <- IH by (destruct l; discriminate).
    rewrite join_app by (auto; discriminate).
    unfold body_line. cbn [join]. now rewrite !append_assoc.
Qed.

(** The text of the entry is its lines, each followed by a newline. *)
Lemma entry_text (a : Params) (dtstr : string) :
  gonna_mount a = true ->
  all_chars (fun c => negb (Ascii.eqb c "B")) dtstr = true ->
  snd (assemble a (fs_type_upper a) dtstr) = cards_text (entry_lines a dtstr).
Proof.
  intros G B. rewrite (assemble_mounting a dtstr G). cbn [snd].
  rewrite comment_header_lines, (parmtail_end_line dtstr B).
  unfold entry_lines.
  change (begin_line dtstr :: header_cards (comments_of a) ++ ?r)%list
    with ((begin_line dtstr :: header_cards (comments_of a)) ++ r)%list.
  rewrite cards_text_app. f_equal.
  rewrite app_assoc, cards_text_app.
  rewrite cards_text_nonempty by discriminate.
  rewrite <- body_render_join by discriminate.
  unfold body_head, mount_line. cbn [join cards_text fold_right].
  repeat (progress (rewrite ?append_assoc; cbn [append])). reflexivity.
Qed.

Lemma one_line_not_nl (c : ascii) :
  is_linebreak c = false -> Ascii.eqb c nl_char = false.
Proof.
  intros H. destruct (Ascii.eqb_spec c nl_char) as [->|]; [|reflexivity].
  discriminate H.
Qed.

Lemma split_nl_aux_line (x cur s : string) :
  one_line x = true ->
  split_nl_aux cur (x ++ s) = split_nl_aux (cur ++ x) s.
Proof.
  revert cur. induction x as [|c x IH]; intros cur H.
  - now rewrite append_nil_r.
  - cbn [one_line] in H. apply andb_true_iff in H. destruct H as [Hc Hx].
    apply negb_true_iff in Hc.
    cbn [append split_nl_aux]. rewrite (one_line_not_nl c Hc), IH by exact Hx.
    now rewrite append_assoc.
Qed.

(** Joining lines that hold no line break and splitting the text at its
    newlines gives the lines back. *)
Lemma split_nl_join (l : list string) :
  l <> [] ->
  Forall (fun line => one_line line = true) l ->
  split_nl (join nl l) = l.
Proof.
  intros N F. unfold split_nl. induction F as [|x l Hx F IH]; [congruence|].
  destruct l as [|y l].
  - cbn [join]. rewrite <- (append_nil_r x) at 1.
    now rewrite split_nl_aux_line.
  - rewrite join_cons by discriminate.
    rewrite split_nl_aux_line by exact Hx.
    change (nl ++ ?j) with (String nl_char j).
    cbn [append split_nl_aux]. rewrite Ascii.eqb_refl.
    now rewrite IH by discriminate.
Qed.






(** X19.  The text written for a resource that is being mounted, split at
    its newlines, is the opening marker, the comment cards, the mount
    command, one continuation line for the mount point, one for the
    type and one per option, and the closing marker, which is the
    opening marker with END for BEGIN; an empty piece follows the last
    newline.  This holds when the time stamp has no capital B and no
    line holds a line-break character. *)
Theorem entry_is_its_lines (a : Params) (dtstr : string) :
  gonna_mount a = true ->
  all_chars (fun c => negb (Ascii.eqb c "B")) dtstr = true ->
  Forall (fun line => one_line line = true) (entry_lines a dtstr) ->
  split_nl (snd (assemble a (fs_type_upper a) dtstr)) =
  (entry_lines a dtstr ++ [EmptyString])%list.
Proof.
  intros G B F.
  rewrite (entry_text a dtstr G B), cards_text_join.
  apply split_nl_join; [destruct (entry_lines a dtstr); discriminate|].
  apply Forall_app. split; [exact F | repeat constructor].
Qed.

Lemma entry_is_its_lines_witness :
  split_nl (snd (assemble (sample_params "mounted" (Some sample_persistent)
                             (Some "NORMAL") (Some EmptyString))
                          (Some "ZFS") "20200101-000000")) =
  (entry_only ++ [EmptyString])%list.
Proof.
  exact (entry_is_its_lines
           (sample_params "mounted" (Some sample_persistent)
              (Some "NORMAL") (Some EmptyString))
           "20200101-000000" eq_refl eq_refl ltac:(repeat constructor)).
Defined.



